(** * Finance AI backend ([backend/app.py]): SQL safety layer, result
      coercion, schema introspection and the insight / chart fallbacks.

    The Python functions are embedded as Rocq functions.  A Python [str]
    is a [string]; text is taken to be ASCII (the SQL dialect and every
    literal the code compares against are ASCII), so [str.lower] folds
    the letters A-Z and leaves every other character alone, and
    [str.strip] removes the ASCII characters for which [str.isspace]
    holds.  A raised exception is a value of [outcome]. *)

From Stdlib Require Import String Ascii List Bool Arith ZArith QArith Lia.
From Stdlib Require Import DecimalString.
Import ListNotations.
Close Scope Q_scope.
Open Scope string_scope.

(** ** Python strings *)

Module PyStr.

Definition is_upper (c : ascii) : bool :=
  let n := nat_of_ascii c in Nat.leb 65 n && Nat.leb n 90.

Definition lower_char (c : ascii) : ascii :=
  if is_upper c then ascii_of_nat (nat_of_ascii c + 32) else c.

(** [s.lower()] *)
Fixpoint lower (s : string) : string :=
  match s with
  | EmptyString => EmptyString
  | String c r => String (lower_char c) (lower r)
  end.

(** [c.isspace()] on ASCII: TAB, LF, VT, FF, CR, FS, GS, RS, US, SPACE. *)
Definition isspace (c : ascii) : bool :=
  let n := nat_of_ascii c in
  (Nat.leb 9 n && Nat.leb n 13) || (Nat.leb 28 n && Nat.leb n 32).

(** Membership of a character in the character set of [strip(chars)]. *)
Fixpoint mem_char (c : ascii) (chars : string) : bool :=
  match chars with
  | EmptyString => false
  | String d r => Ascii.eqb c d || mem_char c r
  end.

Fixpoint lstrip_by (p : ascii -> bool) (s : string) : string :=
  match s with
  | EmptyString => EmptyString
  | String c r => if p c then lstrip_by p r else s
  end.

Fixpoint rstrip_by (p : ascii -> bool) (s : string) : string :=
  match s with
  | EmptyString => EmptyString
  | String c r =>
      match rstrip_by p r with
      | EmptyString => if p c then EmptyString else String c EmptyString
      | r' => String c r'
      end
  end.

(** [s.strip()] *)
Definition strip (s : string) : string :=
  rstrip_by isspace (lstrip_by isspace s).

(** [s.rstrip(chars)] *)
Definition rstrip (chars s : string) : string :=
  rstrip_by (fun c => mem_char c chars) s.

(** [s.startswith(p)] *)
Definition startswith (s p : string) : bool := String.prefix p s.

(** [t in s] for two strings: [t] occurs in [s] as a substring. *)
Fixpoint contains (t s : string) : bool :=
  String.prefix t s ||
  match s with
  | EmptyString => false
  | String _ r => contains t r
  end.

(** Truthiness of a string: [not s] holds exactly for the empty one. *)
Definition truthy (s : string) : bool :=
  match s with EmptyString => false | _ => true end.

(** ["sep".join(parts)] *)
Fixpoint join (sep : string) (parts : list string) : string :=
  match parts with
  | [] => EmptyString
  | [p] => p
  | p :: rest => p ++ sep ++ join sep rest
  end.

(** [str(n)] for an integer. *)
Definition str_of_Z (n : Z) : string :=
  NilEmpty.string_of_int (Z.to_int n).

End PyStr.

Import PyStr.

(** Substring relation that [contains] decides. *)
Definition Substring (t s : string) : Prop :=
  exists p q, s = p ++ t ++ q.

(** [s] begins with [p]. *)
Definition StartsWith (p s : string) : Prop :=
  exists q, s = p ++ q.

(** A string made of [n] copies of one character. *)
Fixpoint replicate (n : nat) (c : ascii) : string :=
  match n with
  | O => EmptyString
  | S k => String c (replicate k c)
  end.

(** The last character of a string, if any. *)
Fixpoint last_char (s : string) : option ascii :=
  match s with
  | EmptyString => None
  | String c EmptyString => Some c
  | String _ r => last_char r
  end.

(** ** Exceptions *)

Inductive exn : Type :=
| ValueError (msg : string)
| OtherError (msg : string).

Inductive outcome (A : Type) : Type :=
| Returns (a : A)
| Raises (e : exn).
Arguments Returns {A} a.
Arguments Raises {A} e.

(** The three messages [validate_sql] raises, under the names the
    specification gives the rejections. *)
Definition EmptyQuery : exn := ValueError "Empty SQL query".
Definition UnsafeQuery (keyword : string) : exn :=
  ValueError ("Unsafe SQL operation: " ++ keyword).
Definition NotAReadQuery : exn := ValueError "Only SELECT queries allowed".

(** ** Utility functions *)

Definition FORBIDDEN_SQL : list string :=
  ["insert"; "update"; "delete"; "drop"; "alter"; "truncate"; "create";
   "grant"; "revoke"].

Definition aggregate_keywords : list string :=
  ["sum("; "count("; "avg("; "min("; "max("].

Definition enforce_limit (sql : string) : string :=
  let sql_l := lower sql in
  if contains "limit" sql_l then sql
  else
    let has_aggregate := existsb (fun k => contains k sql_l) aggregate_keywords in
    let has_group_by := contains "group by" sql_l in
    let has_from := contains "from" sql_l in
    if has_from && (has_group_by || negb has_aggregate)
    then rstrip ";" sql ++ " LIMIT 50;"
    else sql.

(** ** GeminiAI.validate_sql *)

(** The loop [for forbidden in FORBIDDEN_SQL: if forbidden in sql_lower:
    raise ...]: the first keyword, in list order, found in the text. *)
Fixpoint first_forbidden (keywords : list string) (sql_lower : string)
  : option string :=
  match keywords with
  | [] => None
  | forbidden :: rest =>
      if contains forbidden sql_lower then Some forbidden
      else first_forbidden rest sql_lower
  end.

(** The argument is [None] or a [str]. *)
Definition validate_sql (sql : option string) : outcome string :=
  match sql with
  | None => Raises (ValueError "Empty SQL query")
  | Some s =>
      if negb (truthy s) then Raises (ValueError "Empty SQL query")
      else
        let sql_lower := lower s in
        match first_forbidden FORBIDDEN_SQL sql_lower with
        | Some forbidden =>
            Raises (ValueError ("Unsafe SQL operation: " ++ forbidden))
        | None =>
            if negb (startswith (strip sql_lower) "select")
            then Raises (ValueError "Only SELECT queries allowed")
            else Returns s
        end
  end.

(** ** Result tables (pandas DataFrames) *)

(** A value of an object-typed column. *)
Inductive pyobj : Type :=
| PNone
| PNaN
| PStr (s : string)
| PNum (q : Q).

(** A column with its dtype: [object], numeric (a missing value, NaN, is
    [None]) or datetime (each timestamp held as its text). *)
Inductive column : Type :=
| ObjectCol (vals : list pyobj)
| NumericCol (vals : list (option Q))
| DatetimeCol (vals : list string).

(** The columns in order, each under its label. *)
Definition DataFrame : Type := list (string * column).

(** A row as the cursor yields it, and as [to_dict('records')] gives it. *)
Definition record : Type := list (string * pyobj).

(** JSON values, as [json.loads] builds them. *)
#[warnings="-register-all"]
Inductive json : Type :=
| JNull
| JBool (b : bool)
| JNum (q : Q)
| JStr (s : string)
| JArr (items : list json)
| JObj (fields : list (string * json)).

(** What the code takes from pandas, [json] and its own prompt templates:
    - [to_numeric_value]: [pd.to_numeric(..., errors='coerce')] on one
      value, [None] being NaN;
    - [frame_of_records]: [pd.DataFrame(rows)];
    - [json_dumps]: [json.dumps(rows, indent=2)];
    - [json_loads]: [json.loads(text)];
    - [chart_prompt], [insights_prompt]: the prompt texts the two f-string
      templates render from the table, the question and the SQL. *)
Class External : Type := {
  to_numeric_value : pyobj -> option Q;
  frame_of_records : list record -> DataFrame;
  json_dumps : list record -> outcome string;
  json_loads : string -> outcome json;
  chart_prompt : DataFrame -> string -> string;
  insights_prompt : DataFrame -> string -> string -> string
}.

Module Frame.

Definition col_len (c : column) : nat :=
  match c with
  | ObjectCol vals => List.length vals
  | NumericCol vals => List.length vals
  | DatetimeCol vals => List.length vals
  end.

(** [df.columns] *)
Definition columns (df : DataFrame) : list string := map fst df.

(** [len(df)] *)
Definition len (df : DataFrame) : nat :=
  match df with
  | [] => 0
  | (_, c) :: _ => col_len c
  end.

(** [df.empty]: no column or no row. *)
Definition empty (df : DataFrame) : bool :=
  match df with
  | [] => true
  | (_, c) :: _ => Nat.eqb (col_len c) 0
  end.

(** [df[col]] *)
Fixpoint get (col : string) (df : DataFrame) : option column :=
  match df with
  | [] => None
  | (name, c) :: rest => if String.eqb name col then Some c else get col rest
  end.

(** [df[col] = c] for a label the frame already has. *)
Fixpoint set (col : string) (c : column) (df : DataFrame) : DataFrame :=
  match df with
  | [] => []
  | (name, c0) :: rest =>
      if String.eqb name col then (name, c) :: set col c rest
      else (name, c0) :: set col c rest
  end.

(** [dtype == 'object'] *)
Definition is_object (c : column) : bool :=
  match c with ObjectCol _ => true | _ => false end.

Definition is_datetime (c : column) : bool :=
  match c with DatetimeCol _ => true | _ => false end.

(** [col.astype(str)] on a datetime column. *)
Definition astype_str (c : column) : column :=
  match c with
  | DatetimeCol vals => ObjectCol (map PStr vals)
  | _ => c
  end.

(** The value of a column at a row, as a Python object. *)
Definition cell (c : column) (i : nat) : pyobj :=
  match c with
  | ObjectCol vals => nth i vals PNone
  | NumericCol vals =>
      match nth i vals None with Some q => PNum q | None => PNaN end
  | DatetimeCol vals => PStr (nth i vals EmptyString)
  end.

(** [df.to_dict('records')] *)
Definition to_dict_records (df : DataFrame) : list record :=
  map (fun i => map (fun nc => (fst nc, cell (snd nc) i)) df) (seq 0 (len df)).

End Frame.

(** [isna()] on a converted value. *)
Definition isna (v : option Q) : bool :=
  match v with None => true | Some _ => false end.

Section ForceNumeric.
Context {E : External}.

(** [pd.to_numeric(column, errors='coerce')] *)
Definition to_numeric (vals : list pyobj) : list (option Q) :=
  map to_numeric_value vals.

(** What a round does to the column it visits: an object column is
    replaced by its conversion unless every converted value is NaN. *)
Definition coerce_column (c : column) : column :=
  match c with
  | ObjectCol vals =>
      if negb (forallb isna (to_numeric vals))
      then NumericCol (to_numeric vals) else c
  | _ => c
  end.

Definition coerce_entry (nc : string * column) : string * column :=
  (fst nc, coerce_column (snd nc)).

(** One round of the loop of [force_numeric], for the label [col]. *)
Definition force_numeric_step (df : DataFrame) (col : string) : DataFrame :=
  match Frame.get col df with
  | Some (ObjectCol vals) =>
      let converted := to_numeric vals in
      if negb (forallb isna converted)
      then Frame.set col (NumericCol converted) df
      else df
  | _ => df
  end.

Definition force_numeric (df : DataFrame) : DataFrame :=
  fold_left force_numeric_step (Frame.columns df) df.

End ForceNumeric.

(** ** The relational store and the DB class *)

(** A row of the [information_schema.columns] query. *)
Record meta_row : Type := {
  table_name : string;
  column_name : string;
  data_type : string;
  column_type : string
}.

(** What the store answers: the metadata query (connect, execute and
    fetchall; [Raises] when the store is unreachable or the query fails)
    and any other statement. *)
Record Store : Type := {
  metadata_query : outcome (list meta_row);
  execute : string -> outcome (list record)
}.

(** An entry of [schema[table]['columns']]. *)
Record column_info : Type := {
  name : string;
  type : string;
  full_type : string
}.

(** [schema[table]]; [sample_data] is [None] until it is fetched. *)
Record table_info : Type := {
  columns : list column_info;
  sample_data : option (list record);
  row_count : Z
}.

(** The schema dictionary, in insertion order. *)
Definition schema_t : Type := list (string * table_info).

Definition new_table : table_info :=
  {| columns := []; sample_data := None; row_count := 0 |}.

Definition append_column (c : column_info) (info : table_info) : table_info :=
  {| columns := (columns info ++ [c])%list;
     sample_data := sample_data info;
     row_count := row_count info |}.

Definition set_row_count (n : Z) (info : table_info) : table_info :=
  {| columns := columns info; sample_data := sample_data info; row_count := n |}.

Definition set_sample_data (rows : list record) (info : table_info) : table_info :=
  {| columns := columns info; sample_data := Some rows; row_count := row_count info |}.

(** [table in schema] *)
Fixpoint has_table (table : string) (schema : schema_t) : bool :=
  match schema with
  | [] => false
  | (t, _) :: rest => String.eqb t table || has_table table rest
  end.

(** [schema[table] = f(schema[table])] for a table the schema has. *)
Fixpoint update_table (table : string) (f : table_info -> table_info)
    (schema : schema_t) : schema_t :=
  match schema with
  | [] => []
  | (t, info) :: rest =>
      if String.eqb t table then (t, f info) :: rest
      else (t, info) :: update_table table f rest
  end.

(** The body of the loop over the metadata rows. *)
Definition add_meta_row (schema : schema_t) (row : meta_row) : schema_t :=
  let table := table_name row in
  let schema1 :=
    if negb (has_table table schema) then (schema ++ [(table, new_table)])%list
    else schema in
  update_table table
    (append_column {| name := column_name row;
                      type := data_type row;
                      full_type := column_type row |})
    schema1.

(** [int(x)] of a value read out of a frame. *)
Definition int_of (v : pyobj) : outcome Z :=
  match v with
  | PNum q => Returns (Z.quot (Qnum q) (Zpos (Qden q)))
  | PNone => Raises (OtherError "TypeError")
  | PNaN => Raises (ValueError "cannot convert float NaN to integer")
  | PStr _ => Raises (ValueError "invalid literal for int()")
  end.

Section Database.
Context {E : External}.
Variable store : Store.

(** [DB.fetch_df(sql)]: the store's error is passed on to the caller. *)
Definition fetch_df (sql : string) : outcome DataFrame :=
  match execute store sql with
  | Raises e => Raises e
  | Returns result =>
      let df := frame_of_records result in
      if Frame.empty df then Returns df
      else Returns (force_numeric df)
  end.

(** [int(count_df.iloc[0]['count'])] *)
Definition first_count (count_df : DataFrame) : outcome Z :=
  match Frame.get "count" count_df with
  | None => Raises (OtherError "KeyError")
  | Some c => int_of (Frame.cell c 0)
  end.

(** The datetime columns of the sample, turned to text. *)
Definition stringify_datetimes (df : DataFrame) : DataFrame :=
  map (fun nc => if Frame.is_datetime (snd nc)
                 then (fst nc, Frame.astype_str (snd nc)) else nc) df.

(** The guarded body of the per-table loop: whatever was assigned
    before an exception stays, the rest of the body is skipped. *)
Definition fill_table (table : string) (info : table_info) : table_info :=
  match fetch_df ("SELECT COUNT(*) as count FROM " ++ table) with
  | Raises _ => info
  | Returns count_df =>
      let counted :=
        if negb (Frame.empty count_df) then
          match first_count count_df with
          | Returns n => Returns (set_row_count n info)
          | Raises e => Raises e
          end
        else Returns info in
      match counted with
      | Raises _ => info
      | Returns info1 =>
          match fetch_df ("SELECT * FROM " ++ table ++ " LIMIT 3") with
          | Raises _ => info1
          | Returns sample_df =>
              if negb (Frame.empty sample_df) then
                set_sample_data
                  (Frame.to_dict_records (stringify_datetimes sample_df)) info1
              else info1
          end
      end
  end.

(** [DB.get_schema_detailed()]: the whole body is guarded, and the
    handler answers the empty dictionary. *)
Definition get_schema_detailed : outcome schema_t :=
  match metadata_query store with
  | Raises _ => Returns []
  | Returns result =>
      let schema := fold_left add_meta_row result [] in
      Returns (map (fun entry => (fst entry, fill_table (fst entry) (snd entry)))
                   schema)
  end.

Definition NO_TABLES : string := "⚠️ No tables found.".

Definition newline : string := String (ascii_of_nat 10) EmptyString.

(** The lines [get_schema_text] appends for one table. *)
Definition table_lines (table : string) (info : table_info) : list string :=
  let cols := map (fun c => name c ++ " (" ++ type c ++ ")") (columns info) in
  let head :=
    [table ++ ":";
     "  - " ++ join (newline ++ "  - ") cols;
     "  Rows: " ++ str_of_Z (row_count info)] in
  let sample :=
    match sample_data info with
    | None => []
    | Some [] => []
    | Some rows =>
        match json_dumps (firstn 2 rows) with
        | Returns sample_str =>
            if Nat.ltb (String.length sample_str) 300
            then ["  Sample: " ++ sample_str] else []
        | Raises _ => []
        end
    end in
  (head ++ sample ++ [""])%list.

(** [DB.get_schema_text()] *)
Definition get_schema_text : outcome string :=
  match get_schema_detailed with
  | Raises e => Raises e
  | Returns schema =>
      match schema with
      | [] => Returns NO_TABLES
      | _ =>
          Returns (join newline
                     (flat_map (fun entry => table_lines (fst entry) (snd entry))
                               schema))
      end
  end.

(** An HTTP answer of the API: the JSON error message and the status. *)
Inductive response : Type :=
| ErrorResponse (error : string) (status : nat).

(** The schema step of [process_query]: the text to prompt with, or the
    answer that ends the request.  An exception reaches the handler of
    the route, which answers 500 with its message. *)
Definition process_query_schema : response + string :=
  match get_schema_text with
  | Raises (ValueError msg) | Raises (OtherError msg) =>
      inl (ErrorResponse msg 500)
  | Returns schema_text =>
      if negb (truthy schema_text) || contains "⚠️" schema_text
      then inl (ErrorResponse "Unable to access database schema" 500)
      else inr schema_text
  end.

End Database.

(** ** The text-generation service and the GeminiAI class *)

(** What one call of [MODEL.generate_content(...).text] does: it gives a
    text or it raises. *)
Inductive reply : Type :=
| Text (s : string)
| Failure (msg : string).

(** The service as the code sees it: the replies it will give to the
    calls still to come, and the prompts it has been sent so far. *)
Record Model : Type := {
  script : list reply;
  prompts : list string
}.

(** [MODEL.generate_content(prompt).text]; a service with nothing left to
    say raises. *)
Definition generate_content (prompt : string) (m : Model)
  : outcome string * Model :=
  match script m with
  | [] =>
      (Raises (OtherError "service unavailable"),
       {| script := []; prompts := (prompts m ++ [prompt])%list |})
  | Text s :: rest =>
      (Returns s, {| script := rest; prompts := (prompts m ++ [prompt])%list |})
  | Failure msg :: rest =>
      (Raises (OtherError msg),
       {| script := rest; prompts := (prompts m ++ [prompt])%list |})
  end.

(** The number of calls the service has received. *)
Definition invocations (m : Model) : nat := List.length (prompts m).

(** [str(e)] *)
Definition str_of_exn (e : exn) : string :=
  match e with ValueError msg | OtherError msg => msg end.

(** [re.sub(r"```json|```", "", raw, flags=re.IGNORECASE)]: every fence,
    with the word that follows it when that word is json, is dropped.
    [skip] counts the characters of the current match still to drop. *)
Fixpoint drop_fences (skip : nat) (raw : string) : string :=
  match raw with
  | EmptyString => EmptyString
  | String c rest =>
      match skip with
      | S k => drop_fences k rest
      | O =>
          if String.prefix "```json" (lower raw) then drop_fences 6 rest
          else if String.prefix "```" raw then drop_fences 2 rest
          else String c (drop_fences 0 rest)
      end
  end.

(** The value [generate_chart_spec] falls back to. *)
Definition FALLBACK_SPEC : json :=
  JObj [("chart", JStr "table"); ("x", JNull); ("y", JNull);
        ("title", JStr "Data Preview")].

Section GeminiAI.
Context {E : External}.

(** [GeminiAI.generate_chart_spec(df, question)] *)
Definition generate_chart_spec (df : DataFrame) (question : string)
    (m : Model) : json * Model :=
  let prompt := chart_prompt df question in
  let (response, m1) := generate_content prompt m in
  match response with
  | Raises _ => (FALLBACK_SPEC, m1)
  | Returns text =>
      let raw := strip text in
      let raw := strip (drop_fences 0 raw) in
      match json_loads raw with
      | Returns spec => (spec, m1)
      | Raises _ => (FALLBACK_SPEC, m1)
      end
  end.

(** [GeminiAI.generate_insights(df, question, sql)] *)
Definition generate_insights (df : DataFrame) (question sql : string)
    (m : Model) : string * Model :=
  if Frame.empty df then ("No data found for this query.", m)
  else
    let prompt := insights_prompt df question sql in
    let (response, m1) := generate_content prompt m in
    match response with
    | Returns text => (strip text, m1)
    | Raises e => ("Analysis Error: " ++ str_of_exn e, m1)
    end.

End GeminiAI.

(** ** GeminiAI.generate_sql *)

Definition dquote : string := String (ascii_of_nat 34) EmptyString.

Definition backtick : ascii := ascii_of_nat 96.

(** [re.sub(r'```sql|```|`', '', sql, flags=re.IGNORECASE)]: at a
    backtick the first alternative that matches is dropped; [skip] counts
    the characters of the current match still to drop. *)
Fixpoint drop_sql_fences (skip : nat) (sql : string) : string :=
  match sql with
  | EmptyString => EmptyString
  | String c rest =>
      match skip with
      | S k => drop_sql_fences k rest
      | O =>
          if String.prefix "```sql" (lower sql) then drop_sql_fences 5 rest
          else if String.prefix "```" sql then drop_sql_fences 2 rest
          else if String.prefix "`" sql then drop_sql_fences 0 rest
          else String c (drop_sql_fences 0 rest)
      end
  end.

(** [s.split('\n')] *)
Fixpoint split_lines (s : string) : list string :=
  match s with
  | EmptyString => [EmptyString]
  | String c rest =>
      if Ascii.eqb c (ascii_of_nat 10) then EmptyString :: split_lines rest
      else
        match split_lines rest with
        | line :: lines => String c line :: lines
        | [] => [String c EmptyString]
        end
  end.

(** [line.startswith(('#', '//', '--', 'Note:', 'Question:'))] *)
Definition is_comment_line (line : string) : bool :=
  existsb (startswith line) ["#"; "//"; "--"; "Note:"; "Question:"].

(** The list comprehension over the lines of the reply. *)
Definition statement_lines (sql : string) : list string :=
  map strip
      (filter (fun line => truthy (strip line) && negb (is_comment_line (strip line)))
              (split_lines sql)).

(** The text up to the first semicolon. *)
Fixpoint until_semicolon (s : string) : string :=
  match s with
  | EmptyString => EmptyString
  | String c rest =>
      if Ascii.eqb c ";"%char then EmptyString else String c (until_semicolon rest)
  end.

(** The character at an offset is a space for [\s]. *)
Definition space_at (n : nat) (s : string) : bool :=
  match String.get n s with
  | Some c => isspace c
  | None => false
  end.

(** [re.search(r'(SELECT\s+.*?)(?:;|$)', sql, re.IGNORECASE | re.DOTALL)],
    group 1: from the leftmost select that a space follows, up to the
    first semicolon or the end of the text (the text searched is one
    line, so [$] is its end). *)
Fixpoint search_select (sql : string) : option string :=
  match sql with
  | EmptyString => None
  | String _ rest =>
      if String.prefix "select" (lower sql) && space_at 6 sql
      then Some (until_semicolon sql)
      else search_select rest
  end.

(** The clean-up of one reply, up to the test that decides whether the
    attempt gave a statement. *)
Definition extract_sql (text : string) : option string :=
  let sql := strip text in
  let sql := drop_sql_fences 0 sql in
  let sql := strip sql in
  let sql := join " " (statement_lines sql) in
  let sql :=
    if negb (startswith (lower sql) "select") then
      match search_select sql with
      | Some group1 => strip group1
      | None => sql
      end
    else sql in
  if startswith (lower sql) "select" then Some sql else None.

(** The prompt of [generate_sql], for the year [datetime.now().year]. *)
Definition sql_prompt (current_year : Z) (schema_text question : string) : string :=
  let year := str_of_Z current_year in
  join newline
    ["You are a senior SQL analyst with 10+ years of experience.";
     "";
     "CURRENT YEAR: " ++ year;
     "";
     "DATABASE SCHEMA:";
     schema_text;
     "";
     "CRITICAL RULES:";
     "1. Use table.column format (e.g., pnl_data.Revenue)";
     "2. For year filtering:";
     "   - If column type is DATE/DATETIME: use YEAR(table.column_name) = " ++ year;
     "   - If column type is INT (year): use table.column_name = " ++ year;
     "3. For " ++ dquote ++ "this year" ++ dquote ++ " or " ++ dquote ++ "current year" ++ dquote ++ ", filter by year " ++ year;
     "4. **ALWAYS include numeric values in SELECT** - Never return just category names";
     "5. Use SUM() for totals and include the sum in SELECT";
     "6. Add GROUP BY when aggregating by categories";
     "7. Use ORDER BY DESC for rankings";
     "8. When finding " ++ dquote ++ "highest/lowest" ++ dquote ++ ", include the actual amount in SELECT";
     "9. MySQL syntax ONLY";
     "10. READ ONLY queries";
     "11. Use ONLY existing tables and columns from the schema";
     "";
     "USER QUESTION: " ++ question;
     "";
     "Return ONLY the SQL query - no explanations, no markdown, no backticks.";
     "";
     "SQL:"].

(** The retry loop, with [attempts] rounds left: a reply that fails or
    gives no statement uses up a round. *)
Fixpoint generate_sql_loop (attempts : nat) (prompt : string) (m : Model)
  : option string * Model :=
  match attempts with
  | O => (None, m)
  | S rest =>
      let (response, m1) := generate_content prompt m in
      match response with
      | Raises _ => generate_sql_loop rest prompt m1
      | Returns text =>
          match extract_sql text with
          | Some sql => (Some (enforce_limit sql), m1)
          | None => generate_sql_loop rest prompt m1
          end
      end
  end.

Definition max_retries : nat := 3.

(** [GeminiAI.generate_sql(question, schema_text)] *)
Definition generate_sql (current_year : Z) (question schema_text : string)
    (m : Model) : option string * Model :=
  generate_sql_loop max_retries (sql_prompt current_year schema_text question) m.

(** ** The API routes *)

(** The answers of [/api/query], as the values handed to [jsonify].  A
    record of [data] is a dictionary: the order of its fields is that of
    the dictionary built here and is not part of the serialized answer,
    whose keys [jsonify] sorts. *)
Inductive query_response : Type :=
| QueryError (error : string) (status : nat)
| QueryNoResults (sql : string)
| QueryResult (sql : string) (data : list record) (insights : string)
    (chart_spec : json) (row_count : nat).

(** [col.replace({np.nan: None})] on a numeric column. *)
Definition nan_to_none (c : column) : column :=
  match c with
  | NumericCol vals =>
      ObjectCol (map (fun v => match v with Some q => PNum q | None => PNone end) vals)
  | _ => c
  end.

(** The loop that readies the copy of the frame for serialization. *)
Definition clean_frame (df : DataFrame) : DataFrame :=
  map (fun nc =>
         match snd nc with
         | DatetimeCol _ => (fst nc, Frame.astype_str (snd nc))
         | NumericCol _ => (fst nc, nan_to_none (snd nc))
         | ObjectCol _ => nc
         end) df.

Section Routes.
Context {E : External}.
Variable store : Store.

(** [process_query()], for the question of the request body. *)
Definition process_query (current_year : Z) (question : string) (m : Model)
  : query_response * Model :=
  if negb (truthy question) then (QueryError "Question is required" 400, m)
  else
    match process_query_schema store with
    | inl (ErrorResponse error status) => (QueryError error status, m)
    | inr schema_text =>
        match generate_sql current_year question schema_text m with
        | (None, m1) => (QueryError "Could not generate SQL query" 500, m1)
        | (Some sql0, m1) =>
            if negb (truthy sql0)
            then (QueryError "Could not generate SQL query" 500, m1)
            else
              match validate_sql (Some sql0) with
              | Raises e => (QueryError (str_of_exn e) 500, m1)
              | Returns sql =>
                  match fetch_df store sql with
                  | Raises e => (QueryError (str_of_exn e) 500, m1)
                  | Returns df =>
                      if Frame.empty df then (QueryNoResults sql, m1)
                      else
                        let (insights, m2) := generate_insights df question sql m1 in
                        let (chart_spec, m3) := generate_chart_spec df question m2 in
                        let data_records := Frame.to_dict_records (clean_frame df) in
                        (QueryResult sql data_records insights chart_spec (Frame.len df),
                         m3)
                  end
              end
        end
    end.

(** [DB.test_connection()] *)
Definition test_connection : bool :=
  match execute store "SELECT 1" with
  | Returns _ => true
  | Raises _ => false
  end.

(** The answer of [/api/status]. *)
Record status_response : Type := {
  db_status : string;
  ai_status : string;
  tables : list string;
  total_rows : Z
}.

(** [get_status()]; [api_key] is the configured key, if any. *)
Definition get_status (api_key : option string) : status_response :=
  let db := if test_connection then "connected" else "offline" in
  let ai :=
    match api_key with
    | Some key => if truthy key then "active" else "offline"
    | None => "offline"
    end in
  let listing :=
    if String.eqb db "connected" then
      match get_schema_detailed store with
      | Returns schema =>
          (firstn 5 (map fst schema),
           fold_left Z.add (map (fun entry => row_count (snd entry)) schema) 0%Z)
      | Raises _ => ([], 0%Z)
      end
    else ([], 0%Z) in
  {| db_status := db; ai_status := ai;
     tables := fst listing; total_rows := snd listing |}.

End Routes.

(** ** Notions used to state the grouping of the schema *)

(** The column entry [get_schema_detailed] makes of a metadata row. *)
Definition column_of_row (row : meta_row) : column_info :=
  {| name := column_name row; type := data_type row; full_type := column_type row |}.

(** The metadata rows of one table, in the order of the answer. *)
Definition rows_of (t : string) (rows : list meta_row) : list meta_row :=
  filter (fun row => String.eqb (table_name row) t) rows.

(** What the loop over the metadata rows keeps true of the dictionary. *)
Definition grouped (rows : list meta_row) (schema : schema_t) : Prop :=
  NoDup (map fst schema) /\
  (forall t, In t (map fst schema) <-> In t (map table_name rows)) /\
  (forall t info, In (t, info) schema ->
     columns info = map column_of_row (rows_of t rows) /\
     sample_data info = None /\ row_count info = 0%Z).

(** ** A small instance of the libraries, to run the definitions *)

Module Sample.

(** The value of a string of decimal digits. *)
Fixpoint digits_value (acc : Z) (s : string) : option Z :=
  match s with
  | EmptyString => Some acc
  | String c r =>
      let n := nat_of_ascii c in
      if Nat.leb 48 n && Nat.leb n 57
      then digits_value (10 * acc + Z.of_nat (n - 48)) r
      else None
  end.

Definition parse_value (v : pyobj) : option Q :=
  match v with
  | PNum q => Some q
  | PStr (String c r) =>
      match digits_value 0 (String c r) with
      | Some z => Some (inject_Z z)
      | None => None
      end
  | _ => None
  end.

(** Every record contributes its fields; the first record gives the
    labels, and every column is object-typed. *)
Definition frame (rows : list record) : DataFrame :=
  match rows with
  | [] => []
  | first :: _ =>
      map (fun label =>
             (label,
              ObjectCol
                (map (fun r =>
                        match find (fun kv => String.eqb (fst kv) label) r with
                        | Some kv => snd kv
                        | None => PNone
                        end) rows)))
          (map fst first)
  end.

Definition loads (s : string) : outcome json :=
  if String.eqb s "null" then Returns JNull
  else if String.eqb s "true" then Returns (JBool true)
  else if String.eqb s "false" then Returns (JBool false)
  else Raises (ValueError "Expecting value").

Definition dumps (rows : list record) : outcome string :=
  match rows with
  | [] => Returns "[]"
  | _ => Raises (OtherError "TypeError")
  end.

#[export] Instance external : External := {|
  to_numeric_value := parse_value;
  frame_of_records := frame;
  json_dumps := dumps;
  json_loads := loads;
  chart_prompt := fun _ question => "Analyze this data: " ++ question;
  insights_prompt := fun _ question sql => question ++ " / " ++ sql
|}.

(** A store nobody can reach, and a reachable one with no table. *)
Definition unreachable_store : Store :=
  {| metadata_query := Raises (OtherError "Can't connect to MySQL server");
     execute := fun _ => Raises (OtherError "Can't connect to MySQL server") |}.

Definition empty_store : Store :=
  {| metadata_query := Returns [];
     execute := fun _ => Returns [] |}.

(** A store with one table of one row. *)
Definition one_table_store : Store :=
  {| metadata_query :=
       Returns [ {| table_name := "pnl_data"; column_name := "Revenue";
                    data_type := "int"; column_type := "int(11)" |};
                 {| table_name := "pnl_data"; column_name := "year";
                    data_type := "int"; column_type := "int(11)" |} ];
     execute := fun sql =>
       if String.eqb sql "SELECT COUNT(*) as count FROM pnl_data"
       then Returns [[("count", PNum (inject_Z 1))]]
       else Returns [[("Revenue", PStr "100"); ("year", PStr "2024")]] |}.

End Sample.

(** * Properties *)

(** ** Strings *)

Lemma prefix_StartsWith (p s : string) :
  String.prefix p s = true <-> StartsWith p s.
Proof.
  revert s; induction p as [|a p IH]; intros s.
  - split; [intros _; exists s; reflexivity | destruct s; reflexivity].
  - destruct s as [|b s]; simpl.
    + split; [discriminate | intros [q Hq]; discriminate Hq].
    + destruct (ascii_dec a b) as [->|Hab].
      * rewrite IH. split; intros [q Hq]; exists q.
        -- simpl; now rewrite Hq.
        -- simpl in Hq; now injection Hq.
      * split; [discriminate|].
        intros [q Hq]; simpl in Hq; injection Hq as Hb _; congruence.
Qed.

Lemma contains_Substring (t s : string) :
  contains t s = true <-> Substring t s.
Proof.
  induction s as [|c s IH].
  - cbn [contains]. rewrite orb_false_r, prefix_StartsWith. split.
    + intros [q Hq]. exists EmptyString, q. exact Hq.
    + intros [[|a p] [q Hq]]; [exists q; exact Hq | discriminate Hq].
  - cbn [contains]. rewrite orb_true_iff, prefix_StartsWith, IH. split.
    + intros [[q Hq] | [p [q Hq]]].
      * exists EmptyString, q; exact Hq.
      * exists (String c p), q; simpl; now rewrite Hq.
    + intros [[|a p] [q Hq]].
      * left; exists q; exact Hq.
      * right; simpl in Hq; injection Hq as _ Hs; exists p, q; exact Hs.
Qed.

Lemma not_contains_Substring (t s : string) :
  contains t s = false <-> ~ Substring t s.
Proof.
  rewrite <- contains_Substring. destruct (contains t s); split; intuition congruence.
Qed.

Lemma lower_app (a b : string) : lower (a ++ b) = lower a ++ lower b.
Proof.
  induction a as [|c a IH]; simpl; [reflexivity | now rewrite IH].
Qed.

Lemma Substring_nonempty (t s : string) :
  t <> EmptyString -> Substring t (lower s) -> s <> EmptyString.
Proof.
  intros Ht [p [q H]] ->. simpl in H.
  destruct p; [destruct t; [congruence | discriminate H] | discriminate H].
Qed.

(** [rstrip_by] cuts off a run of characters of the set and stops at the
    last character outside it. *)
Lemma rstrip_by_split (p : ascii -> bool) (s : string) :
  exists tail, s = rstrip_by p s ++ tail
               /\ (forall c, mem_char c tail = true -> p c = true).
Proof.
  induction s as [|c s [tail [Hs Htail]]].
  - exists EmptyString; split; [reflexivity | discriminate].
  - simpl. destruct (rstrip_by p s) as [|d r] eqn:Hr.
    + destruct (p c) eqn:Hc.
      * exists (String c s); split; [reflexivity|].
        simpl in Hs; subst tail. intros x; simpl.
        rewrite orb_true_iff. intros [Hx | Hx]; [|now apply Htail].
        apply Ascii.eqb_eq in Hx; now subst.
      * exists tail; split; [|exact Htail]. simpl in *; now rewrite <- Hs.
    + exists tail; split; [|exact Htail]. simpl in *; now rewrite <- Hs.
Qed.

Lemma rstrip_by_last (p : ascii -> bool) (s : string) (c : ascii) :
  last_char (rstrip_by p s) = Some c -> p c = false.
Proof.
  revert c; induction s as [|a s IH]; intros c; simpl; [discriminate|].
  destruct (rstrip_by p s) as [|d r] eqn:Hr.
  - destruct (p a) eqn:Ha; simpl; [discriminate|].
    intros H; injection H as <-; exact Ha.
  - intros H. apply IH. exact H.
Qed.

Lemma only_char_replicate (c : ascii) (tail : string) :
  (forall x, mem_char x tail = true -> mem_char x (String c EmptyString) = true) ->
  tail = replicate (String.length tail) c.
Proof.
  induction tail as [|a tail IH]; intros H; simpl; [reflexivity|].
  assert (Ha : a = c).
  { specialize (H a). simpl in H. rewrite Ascii.eqb_refl in H.
    specialize (H eq_refl). rewrite orb_false_r in H. now apply Ascii.eqb_eq. }
  subst a. f_equal. apply IH. intros x Hx. apply H. simpl. now rewrite Hx, orb_true_r.
Qed.

(** [sql.rstrip(";")]: the text without its trailing semicolons. *)
Lemma rstrip_semicolons (s : string) :
  exists n, s = rstrip ";" s ++ replicate n ";"%char
            /\ last_char (rstrip ";" s) <> Some ";"%char.
Proof.
  unfold rstrip.
  destruct (rstrip_by_split (fun c => mem_char c ";") s) as [tail [Hs Htail]].
  exists (String.length tail). split.
  - rewrite <- (only_char_replicate ";"%char tail Htail). exact Hs.
  - intros H. apply rstrip_by_last in H. discriminate H.
Qed.

Lemma existsb_contains_false (keys : list string) (s : string) :
  existsb (fun k => contains k s) keys = false <->
  (forall k, In k keys -> ~ Substring k s).
Proof.
  induction keys as [|k keys IH]; simpl.
  - split; [intros _ k [] | reflexivity].
  - rewrite orb_false_iff, IH, not_contains_Substring. split.
    + intros [Hk Hrest] k' [<- | Hin]; [exact Hk | now apply Hrest].
    + intros H; split; [apply H; now left | intros k' Hin; apply H; now right].
Qed.

Lemma first_forbidden_some (keys : list string) (s k : string) :
  first_forbidden keys s = Some k -> In k keys /\ Substring k s.
Proof.
  induction keys as [|k0 keys IH]; simpl; [discriminate|].
  destruct (contains k0 s) eqn:Hk0.
  - intros H; injection H as <-. split; [now left | now apply contains_Substring].
  - intros H; destruct (IH H); split; [now right | assumption].
Qed.

Lemma first_forbidden_none (keys : list string) (s : string) :
  first_forbidden keys s = None <-> (forall k, In k keys -> ~ Substring k s).
Proof.
  induction keys as [|k0 keys IH]; simpl.
  - split; [intros _ k [] | reflexivity].
  - destruct (contains k0 s) eqn:Hk0.
    + split; [discriminate|]. intros H. exfalso.
      apply (H k0); [now left | now apply contains_Substring].
    + rewrite IH. apply not_contains_Substring in Hk0. split.
      * intros H k [<- | Hin]; [exact Hk0 | now apply H].
      * intros H k Hin; apply H; now right.
Qed.

Lemma forbidden_nonempty (k : string) : In k FORBIDDEN_SQL -> k <> EmptyString.
Proof.
  unfold FORBIDDEN_SQL; simpl; intros H.
  repeat (destruct H as [<- | H]; [discriminate|]). destruct H.
Qed.

Lemma truthy_nonempty (s : string) : s <> EmptyString -> truthy s = true.
Proof. destruct s; [congruence | reflexivity]. Qed.

(** ** validate_sql *)

(** C1: a statement whose lower-cased text contains a forbidden keyword
    as a substring, also inside a longer identifier, is refused with the
    unsafe-query error, and the message names a forbidden keyword that
    occurs in the text (the first one of the list that does). *)
Theorem validate_sql_rejects_forbidden (s k : string) :
  In k FORBIDDEN_SQL ->
  Substring k (lower s) ->
  exists k',
    In k' FORBIDDEN_SQL /\ Substring k' (lower s) /\
    first_forbidden FORBIDDEN_SQL (lower s) = Some k' /\
    validate_sql (Some s) = Raises (UnsafeQuery k').
Proof.
  intros Hin Hsub.
  assert (Hs : truthy s = true).
  { apply truthy_nonempty. eapply Substring_nonempty; eauto using forbidden_nonempty. }
  destruct (first_forbidden FORBIDDEN_SQL (lower s)) as [k'|] eqn:Hscan.
  - destruct (first_forbidden_some _ _ _ Hscan) as [Hin' Hsub'].
    exists k'. repeat split; try assumption.
    unfold validate_sql, UnsafeQuery. now rewrite Hs, Hscan.
  - exfalso. rewrite first_forbidden_none in Hscan. exact (Hscan k Hin Hsub).
Qed.

Lemma validate_sql_rejects_forbidden_witness :
  exists k',
    In k' FORBIDDEN_SQL /\
    Substring k' (lower "SELECT col FROM table_dropped") /\
    first_forbidden FORBIDDEN_SQL (lower "SELECT col FROM table_dropped") = Some k' /\
    validate_sql (Some "SELECT col FROM table_dropped") = Raises (UnsafeQuery k').
Proof.
  apply (validate_sql_rejects_forbidden "SELECT col FROM table_dropped" "drop").
  - simpl; tauto.
  - apply contains_Substring; reflexivity.
Defined.

(** C2, as stated, fails: a statement that does not start with select is
    refused with another error when it is empty or holds a forbidden
    keyword. *)
Lemma validate_sql_not_select_counterexample :
  startswith (strip (lower "DROP TABLE t")) "select" = false /\
  validate_sql (Some "DROP TABLE t") = Raises (UnsafeQuery "drop") /\
  validate_sql (Some "DROP TABLE t") <> Raises NotAReadQuery /\
  startswith (strip (lower "")) "select" = false /\
  validate_sql (Some "") = Raises EmptyQuery /\
  validate_sql (Some "") <> Raises NotAReadQuery.
Proof.
  repeat split; try reflexivity; intros H; discriminate H.
Qed.

(** C2, amended: a non-empty statement that holds no forbidden keyword
    and whose trimmed, lower-cased text does not start with select is
    refused with the not-a-read-query error. *)
Theorem validate_sql_rejects_non_select (s : string) :
  s <> EmptyString ->
  (forall k, In k FORBIDDEN_SQL -> ~ Substring k (lower s)) ->
  ~ StartsWith "select" (strip (lower s)) ->
  validate_sql (Some s) = Raises NotAReadQuery.
Proof.
  intros Hs Hclean Hsel.
  unfold validate_sql, NotAReadQuery, startswith.
  rewrite (truthy_nonempty s Hs). cbn [negb].
  apply first_forbidden_none in Hclean. rewrite Hclean.
  destruct (String.prefix "select" (strip (lower s))) eqn:Hp; [|reflexivity].
  exfalso. apply Hsel. now apply prefix_StartsWith.
Qed.

Lemma validate_sql_rejects_non_select_witness :
  validate_sql (Some "SHOW TABLES") = Raises NotAReadQuery.
Proof.
  apply (validate_sql_rejects_non_select "SHOW TABLES").
  - discriminate.
  - apply first_forbidden_none; reflexivity.
  - intros H. apply prefix_StartsWith in H. discriminate H.
Defined.

(** C10: the checks come in a fixed order.  An absent or empty statement
    raises the empty-query error; otherwise a forbidden keyword is
    reported before the select prefix is looked at, so a statement with a
    forbidden keyword that does not start with select (DROP TABLE t)
    raises the unsafe-query error and not the not-a-read-query one; and a
    statement no check refuses is returned as it is. *)
Theorem validate_sql_precedence :
  validate_sql None = Raises EmptyQuery /\
  validate_sql (Some EmptyString) = Raises EmptyQuery /\
  (forall s k,
      In k FORBIDDEN_SQL -> Substring k (lower s) ->
      ~ StartsWith "select" (strip (lower s)) ->
      exists k', In k' FORBIDDEN_SQL /\ Substring k' (lower s) /\
                 validate_sql (Some s) = Raises (UnsafeQuery k') /\
                 validate_sql (Some s) <> Raises NotAReadQuery) /\
  validate_sql (Some "DROP TABLE t") = Raises (UnsafeQuery "drop") /\
  (forall s,
      s <> EmptyString ->
      (forall k, In k FORBIDDEN_SQL -> ~ Substring k (lower s)) ->
      StartsWith "select" (strip (lower s)) ->
      validate_sql (Some s) = Returns s).
Proof.
  split; [reflexivity|]. split; [reflexivity|]. split; [|split; [reflexivity|]].
  - intros s k Hin Hsub _.
    assert (Hs : truthy s = true).
    { apply truthy_nonempty. eapply Substring_nonempty; eauto using forbidden_nonempty. }
    destruct (first_forbidden FORBIDDEN_SQL (lower s)) as [k'|] eqn:Hscan.
    + destruct (first_forbidden_some _ _ _ Hscan) as [Hin' Hsub'].
      exists k'. unfold validate_sql. rewrite Hs, Hscan. cbn [negb].
      repeat split; try assumption. intros H; discriminate H.
    + exfalso. rewrite first_forbidden_none in Hscan. exact (Hscan k Hin Hsub).
  - intros s Hs Hclean Hsel.
    unfold validate_sql, startswith.
    rewrite (truthy_nonempty s Hs). cbn [negb].
    apply first_forbidden_none in Hclean. rewrite Hclean.
    apply prefix_StartsWith in Hsel. now rewrite Hsel.
Qed.

Lemma validate_sql_precedence_witness :
  (exists k', In k' FORBIDDEN_SQL /\ Substring k' (lower "delete from t") /\
              validate_sql (Some "delete from t") = Raises (UnsafeQuery k') /\
              validate_sql (Some "delete from t") <> Raises NotAReadQuery) /\
  validate_sql (Some "  Select a FROM t") = Returns "  Select a FROM t".
Proof.
  destruct validate_sql_precedence as [_ [_ [Hscan [_ Hpass]]]]. split.
  - apply (Hscan "delete from t" "delete").
    + simpl; tauto.
    + apply contains_Substring; reflexivity.
    + intros H. apply prefix_StartsWith in H. discriminate H.
  - apply (Hpass "  Select a FROM t").
    + discriminate.
    + apply first_forbidden_none; reflexivity.
    + apply prefix_StartsWith; reflexivity.
Defined.

(** ** enforce_limit *)

(** C3: the three cases of [enforce_limit].  With limit in the lower-cased
    text the statement is returned as it is; otherwise, with from and
    either group by or none of the aggregate calls, the trailing
    semicolons are cut off and the limit clause is appended; otherwise
    the statement is returned as it is. *)
Theorem enforce_limit_cases (s : string) :
  (Substring "limit" (lower s) -> enforce_limit s = s) /\
  (~ Substring "limit" (lower s) ->
   Substring "from" (lower s) ->
   (Substring "group by" (lower s) \/
    forall k, In k aggregate_keywords -> ~ Substring k (lower s)) ->
   exists body n,
     s = body ++ replicate n ";"%char /\
     last_char body <> Some ";"%char /\
     enforce_limit s = body ++ " LIMIT 50;") /\
  (~ Substring "limit" (lower s) ->
   ~ (Substring "from" (lower s) /\
      (Substring "group by" (lower s) \/
       forall k, In k aggregate_keywords -> ~ Substring k (lower s))) ->
   enforce_limit s = s).
Proof.
  unfold enforce_limit. repeat split.
  - intros H. apply contains_Substring in H. now rewrite H.
  - intros Hlim Hfrom Hgrp.
    apply not_contains_Substring in Hlim. apply contains_Substring in Hfrom.
    rewrite Hlim, Hfrom. cbn [andb].
    assert (Hguard : contains "group by" (lower s)
                     || negb (existsb (fun k => contains k (lower s)) aggregate_keywords)
                     = true).
    { destruct Hgrp as [Hg | Hagg].
      - apply contains_Substring in Hg. now rewrite Hg.
      - apply existsb_contains_false in Hagg. rewrite Hagg. apply orb_true_r. }
    rewrite Hguard.
    destruct (rstrip_semicolons s) as [n [Hs Hlast]].
    exists (rstrip ";" s), n. repeat split; assumption.
  - intros Hlim Hnot.
    apply not_contains_Substring in Hlim. rewrite Hlim.
    destruct (contains "from" (lower s)) eqn:Hfrom; [|reflexivity].
    cbn [andb].
    destruct (contains "group by" (lower s)) eqn:Hg.
    + exfalso. apply Hnot. split; [|left]; now apply contains_Substring.
    + cbn [orb].
      destruct (existsb (fun k => contains k (lower s)) aggregate_keywords) eqn:Hagg;
        [reflexivity|].
      exfalso. apply Hnot. split; [now apply contains_Substring|].
      right. now apply existsb_contains_false.
Qed.

Lemma enforce_limit_cases_witness :
  enforce_limit "SELECT a FROM t LIMIT 5" = "SELECT a FROM t LIMIT 5" /\
  (exists body n,
      "SELECT a FROM t;;" = body ++ replicate n ";"%char /\
      last_char body <> Some ";"%char /\
      enforce_limit "SELECT a FROM t;;" = body ++ " LIMIT 50;") /\
  enforce_limit "SELECT SUM(a) FROM t" = "SELECT SUM(a) FROM t".
Proof.
  split; [|split].
  - apply (proj1 (enforce_limit_cases "SELECT a FROM t LIMIT 5")).
    apply contains_Substring; reflexivity.
  - apply (proj1 (proj2 (enforce_limit_cases "SELECT a FROM t;;"))).
    + apply not_contains_Substring; reflexivity.
    + apply contains_Substring; reflexivity.
    + right. apply existsb_contains_false; reflexivity.
  - apply (proj2 (proj2 (enforce_limit_cases "SELECT SUM(a) FROM t"))).
    + apply not_contains_Substring; reflexivity.
    + intros [_ [Hg | Hagg]].
      * apply contains_Substring in Hg; discriminate Hg.
      * apply existsb_contains_false in Hagg; discriminate Hagg.
Defined.

Lemma contains_app_r (t p q : string) :
  contains t q = true -> contains t (p ++ q) = true.
Proof.
  rewrite !contains_Substring. intros [a [b H]].
  exists (p ++ a), b. rewrite H.
  induction p as [|c p IH]; simpl; [reflexivity | now rewrite IH].
Qed.

(** C4: [enforce_limit] is idempotent. *)
Theorem enforce_limit_idempotent (s : string) :
  enforce_limit (enforce_limit s) = enforce_limit s.
Proof.
  unfold enforce_limit at 2 3.
  destruct (contains "limit" (lower s)) eqn:Hlim.
  - unfold enforce_limit. now rewrite Hlim.
  - destruct (contains "from" (lower s)
              && (contains "group by" (lower s)
                  || negb (existsb (fun k => contains k (lower s)) aggregate_keywords)))
      eqn:Hguard.
    + unfold enforce_limit.
      replace (contains "limit" (lower (rstrip ";" s ++ " LIMIT 50;"))) with true;
        [reflexivity|].
      symmetry. rewrite lower_app. apply contains_app_r. reflexivity.
    + unfold enforce_limit. now rewrite Hlim, Hguard.
Qed.

(** C5, as stated, fails: a statement with group by and without limit is
    returned unchanged when its text has no from. *)
Lemma enforce_limit_group_by_counterexample :
  contains "group by" (lower "select 1 group by 1") = true /\
  contains "limit" (lower "select 1 group by 1") = false /\
  enforce_limit "select 1 group by 1" = "select 1 group by 1" /\
  contains "LIMIT 50;" (enforce_limit "select 1 group by 1") = false.
Proof. repeat split. Qed.

(** C5, amended: a statement whose lower-cased text contains group by
    and from and does not contain limit comes back with its trailing
    semicolons cut off and the limit clause appended, whether or not an
    aggregate call is present. *)
Theorem enforce_limit_group_by (s : string) :
  Substring "group by" (lower s) ->
  Substring "from" (lower s) ->
  ~ Substring "limit" (lower s) ->
  exists body n,
    s = body ++ replicate n ";"%char /\
    last_char body <> Some ";"%char /\
    enforce_limit s = body ++ " LIMIT 50;".
Proof.
  intros Hg Hfrom Hlim.
  apply contains_Substring in Hg, Hfrom. apply not_contains_Substring in Hlim.
  destruct (rstrip_semicolons s) as [n [Hs Hlast]].
  exists (rstrip ";" s), n. repeat split; try assumption.
  unfold enforce_limit. now rewrite Hlim, Hfrom, Hg.
Qed.

Lemma enforce_limit_group_by_witness :
  exists body n,
    "SELECT a, SUM(b) FROM t GROUP BY a;" = body ++ replicate n ";"%char /\
    last_char body <> Some ";"%char /\
    enforce_limit "SELECT a, SUM(b) FROM t GROUP BY a;" = body ++ " LIMIT 50;".
Proof.
  apply (enforce_limit_group_by "SELECT a, SUM(b) FROM t GROUP BY a;").
  - apply contains_Substring; reflexivity.
  - apply contains_Substring; reflexivity.
  - apply not_contains_Substring; reflexivity.
Defined.

(** ** force_numeric *)

Section ForceNumericFacts.
Context {E : External}.
Local Open Scope list_scope.

Lemma get_skip (col : string) (pre rest : DataFrame) :
  ~ In col (Frame.columns pre) ->
  Frame.get col (pre ++ rest) = Frame.get col rest.
Proof.
  induction pre as [|[n c] pre IH]; simpl; [reflexivity|].
  intros H. destruct (String.eqb n col) eqn:Hn.
  - apply String.eqb_eq in Hn. tauto.
  - apply IH. tauto.
Qed.

Lemma set_absent (col : string) (c : column) (df : DataFrame) :
  ~ In col (Frame.columns df) -> Frame.set col c df = df.
Proof.
  induction df as [|[n c0] df IH]; simpl; [reflexivity|].
  intros H. destruct (String.eqb n col) eqn:Hn.
  - apply String.eqb_eq in Hn. tauto.
  - rewrite IH; tauto.
Qed.

Lemma set_app (col : string) (c : column) (a b : DataFrame) :
  Frame.set col c (a ++ b) = Frame.set col c a ++ Frame.set col c b.
Proof.
  induction a as [|[n c0] a IH]; simpl; [reflexivity|].
  destruct (String.eqb n col); now rewrite IH.
Qed.

Lemma columns_coerced (df : DataFrame) :
  Frame.columns (map coerce_entry df) = Frame.columns df.
Proof.
  unfold Frame.columns. rewrite map_map. reflexivity.
Qed.

(** A round on a label that occurs once rewrites that column only. *)
Lemma force_numeric_step_at (pre post : DataFrame) (col : string) (c : column) :
  ~ In col (Frame.columns pre) ->
  ~ In col (Frame.columns post) ->
  force_numeric_step (pre ++ (col, c) :: post) col
  = pre ++ (col, coerce_column c) :: post.
Proof.
  intros Hpre Hpost. unfold force_numeric_step.
  rewrite (get_skip col pre _ Hpre). simpl. rewrite String.eqb_refl.
  destruct c as [vals | vals | vals]; try reflexivity.
  simpl. destruct (forallb isna (to_numeric vals)); simpl; [reflexivity|].
  rewrite set_app, (set_absent col _ pre Hpre). simpl.
  rewrite String.eqb_refl, (set_absent col _ post Hpost). reflexivity.
Qed.

Lemma force_numeric_rounds (post pre : DataFrame) :
  NoDup (Frame.columns (pre ++ post)) ->
  fold_left force_numeric_step (Frame.columns post) (map coerce_entry pre ++ post)
  = map coerce_entry (pre ++ post).
Proof.
  revert pre. induction post as [|[n c] post IH]; intros pre Hnd.
  - simpl. now rewrite !app_nil_r.
  - cbn [Frame.columns map fold_left fst].
    unfold Frame.columns in Hnd. rewrite map_app in Hnd. cbn [map fst] in Hnd.
    pose proof (NoDup_remove_2 _ _ _ Hnd) as Hfresh.
    rewrite in_app_iff in Hfresh.
    rewrite force_numeric_step_at.
    + specialize (IH (pre ++ [(n, c)])).
      rewrite map_app in IH. cbn [map] in IH. rewrite <- !app_assoc in IH.
      cbn [app] in IH. apply IH.
      unfold Frame.columns. rewrite !map_app. cbn [map fst app]. exact Hnd.
    + rewrite columns_coerced. tauto.
    + tauto.
Qed.

Lemma force_numeric_map (df : DataFrame) :
  NoDup (Frame.columns df) -> force_numeric df = map coerce_entry df.
Proof.
  intros Hnd. exact (force_numeric_rounds df [] Hnd).
Qed.

Lemma forallb_isna_all (vals : list pyobj) :
  forallb isna (to_numeric vals) = true <->
  (forall v, In v vals -> to_numeric_value v = None).
Proof.
  unfold to_numeric. rewrite forallb_forall. split.
  - intros H v Hv. specialize (H (to_numeric_value v) (in_map _ _ _ Hv)).
    destruct (to_numeric_value v); [discriminate H | reflexivity].
  - intros H x Hx. apply in_map_iff in Hx as [v [<- Hv]]. now rewrite (H v Hv).
Qed.

End ForceNumericFacts.

(** C7: on a table with distinct labels, [force_numeric] keeps every
    label and every column that is not object-typed; an object column
    with at least one value that parses becomes the numeric column of
    its conversions (NaN where a value does not parse), and an object
    column with no value that parses is left as it is.  With "10", "20"
    and "30" parsing as 10, 20 and 30 the column of these three becomes
    numeric; with "a", "b" and "c" not parsing their column stays text. *)
Theorem force_numeric_converts_parseable {E : External} :
  (forall df,
      NoDup (Frame.columns df) ->
      Forall2
        (fun inp out =>
           fst out = fst inp /\
           match snd inp with
           | ObjectCol vals =>
               ((exists v, In v vals /\ to_numeric_value v <> None) ->
                snd out = NumericCol (map to_numeric_value vals)) /\
               ((forall v, In v vals -> to_numeric_value v = None) ->
                snd out = snd inp)
           | _ => snd out = snd inp
           end)
        df (force_numeric df)) /\
  (forall label,
      to_numeric_value (PStr "10") = Some (inject_Z 10) ->
      to_numeric_value (PStr "20") = Some (inject_Z 20) ->
      to_numeric_value (PStr "30") = Some (inject_Z 30) ->
      force_numeric [(label, ObjectCol [PStr "10"; PStr "20"; PStr "30"])]
      = [(label, NumericCol [Some (inject_Z 10); Some (inject_Z 20);
                             Some (inject_Z 30)])]) /\
  (forall label,
      to_numeric_value (PStr "a") = None ->
      to_numeric_value (PStr "b") = None ->
      to_numeric_value (PStr "c") = None ->
      force_numeric [(label, ObjectCol [PStr "a"; PStr "b"; PStr "c"])]
      = [(label, ObjectCol [PStr "a"; PStr "b"; PStr "c"])]).
Proof.
  split; [|split].
  - intros df Hnd. rewrite (force_numeric_map df Hnd). clear Hnd.
    induction df as [|[n c] df IH]; constructor; [|exact IH].
    split; [reflexivity|]. simpl.
    destruct c as [vals | vals | vals]; try reflexivity.
    simpl. destruct (forallb isna (to_numeric vals)) eqn:Hall; simpl.
    + split; [|reflexivity].
      intros [v [Hv Hparse]]. exfalso. apply Hparse.
      now apply (proj1 (forallb_isna_all vals) Hall).
    + split; [reflexivity|].
      intros Hnone. apply forallb_isna_all in Hnone. congruence.
  - intros label H10 H20 H30.
    unfold force_numeric, force_numeric_step. simpl.
    rewrite String.eqb_refl. simpl. now rewrite H10, H20, H30.
  - intros label Ha Hb Hc.
    unfold force_numeric, force_numeric_step. simpl.
    rewrite String.eqb_refl. simpl. now rewrite Ha, Hb, Hc.
Qed.

Lemma force_numeric_converts_parseable_witness :
  Forall2
    (fun inp out =>
       fst out = fst inp /\
       match snd inp with
       | ObjectCol vals =>
           ((exists v, In v vals /\ Sample.parse_value v <> None) ->
            snd out = NumericCol (map Sample.parse_value vals)) /\
           ((forall v, In v vals -> Sample.parse_value v = None) ->
            snd out = snd inp)
       | _ => snd out = snd inp
       end)
    [("units", ObjectCol [PStr "1"; PStr "2"; PStr "abc"]);
     ("region", ObjectCol [PStr "north"; PNone]);
     ("year", NumericCol [Some (inject_Z 2024); None])]
    (force_numeric (E := Sample.external)
       [("units", ObjectCol [PStr "1"; PStr "2"; PStr "abc"]);
        ("region", ObjectCol [PStr "north"; PNone]);
        ("year", NumericCol [Some (inject_Z 2024); None])]) /\
  force_numeric (E := Sample.external)
    [("amount", ObjectCol [PStr "10"; PStr "20"; PStr "30"])]
  = [("amount", NumericCol [Some (inject_Z 10); Some (inject_Z 20);
                            Some (inject_Z 30)])] /\
  force_numeric (E := Sample.external)
    [("name", ObjectCol [PStr "a"; PStr "b"; PStr "c"])]
  = [("name", ObjectCol [PStr "a"; PStr "b"; PStr "c"])].
Proof.
  split; [|split].
  - apply (proj1 (force_numeric_converts_parseable (E := Sample.external))).
    repeat constructor; simpl; intuition discriminate.
  - apply (proj1 (proj2 (force_numeric_converts_parseable (E := Sample.external))));
      reflexivity.
  - apply (proj2 (proj2 (force_numeric_converts_parseable (E := Sample.external))));
      reflexivity.
Defined.

(** ** Schema introspection *)

(** C6, as stated, fails: with the metadata query failing, no error is
    raised; the answer is the empty schema, the same as for a reachable
    store without tables, and the request is answered alike. *)
Lemma get_schema_detailed_counterexample :
  metadata_query Sample.unreachable_store
  = Raises (OtherError "Can't connect to MySQL server") /\
  metadata_query Sample.empty_store = Returns [] /\
  get_schema_detailed (E := Sample.external) Sample.unreachable_store = Returns [] /\
  get_schema_detailed (E := Sample.external) Sample.empty_store = Returns [] /\
  process_query_schema (E := Sample.external) Sample.unreachable_store
  = process_query_schema (E := Sample.external) Sample.empty_store.
Proof. repeat split. Qed.

(** C6, amended: [get_schema_detailed] never raises.  When the metadata
    query fails or the store is unreachable it returns the empty schema,
    which is also what it returns for a store with no table; the caller
    cannot tell the two apart: [get_schema_text] gives the same warning
    text and [process_query] the same 500 answer for both. *)
Theorem get_schema_detailed_swallows_failure {E : External} (store : Store) :
  (exists schema, get_schema_detailed store = Returns schema) /\
  ((exists e, metadata_query store = Raises e) \/ metadata_query store = Returns [] ->
   get_schema_detailed store = Returns [] /\
   get_schema_text store = Returns NO_TABLES /\
   process_query_schema store
   = inl (ErrorResponse "Unable to access database schema" 500)).
Proof.
  split.
  - unfold get_schema_detailed. destruct (metadata_query store); eauto.
  - intros H.
    assert (Hs : get_schema_detailed store = Returns []).
    { unfold get_schema_detailed. destruct H as [[e ->] | ->]; reflexivity. }
    unfold process_query_schema, get_schema_text. rewrite Hs. repeat split.
Qed.

Lemma get_schema_detailed_swallows_failure_witness :
  (get_schema_detailed (E := Sample.external) Sample.unreachable_store = Returns [] /\
   get_schema_text (E := Sample.external) Sample.unreachable_store = Returns NO_TABLES /\
   process_query_schema (E := Sample.external) Sample.unreachable_store
   = inl (ErrorResponse "Unable to access database schema" 500)) /\
  (get_schema_detailed (E := Sample.external) Sample.empty_store = Returns [] /\
   get_schema_text (E := Sample.external) Sample.empty_store = Returns NO_TABLES /\
   process_query_schema (E := Sample.external) Sample.empty_store
   = inl (ErrorResponse "Unable to access database schema" 500)).
Proof.
  split.
  - apply (proj2 (get_schema_detailed_swallows_failure (E := Sample.external)
                    Sample.unreachable_store)).
    left. eexists. reflexivity.
  - apply (proj2 (get_schema_detailed_swallows_failure (E := Sample.external)
                    Sample.empty_store)).
    right. reflexivity.
Defined.

(** ** Insights and chart specification *)

(** C8: on an empty table [generate_insights] answers the fixed text and
    leaves the service untouched; the service is called, once and with
    the insights prompt, exactly when the table is not empty. *)
Theorem generate_insights_empty_short_circuit {E : External}
    (df : DataFrame) (question sql : string) (m : Model) :
  (Frame.empty df = true ->
   generate_insights df question sql m = ("No data found for this query.", m)) /\
  (Frame.empty df = false ->
   prompts (snd (generate_insights df question sql m))
   = (prompts m ++ [insights_prompt df question sql])%list /\
   invocations (snd (generate_insights df question sql m)) = S (invocations m)) /\
  (invocations (snd (generate_insights df question sql m)) <> invocations m ->
   Frame.empty df = false).
Proof.
  unfold generate_insights. destruct (Frame.empty df) eqn:Hempty.
  - split; [reflexivity|]. split; [discriminate|]. simpl. congruence.
  - split; [discriminate|]. split; [|reflexivity]. intros _.
    unfold generate_content, invocations.
    destruct (script m) as [|[text | msg] rest]; simpl;
      (split; [reflexivity|]); rewrite length_app; simpl; lia.
Qed.

Lemma generate_insights_empty_short_circuit_witness :
  generate_insights (E := Sample.external) [] "Total revenue?" "SELECT 1 FROM t"
    {| script := [Text "unused"]; prompts := [] |}
  = ("No data found for this query.", {| script := [Text "unused"]; prompts := [] |}) /\
  invocations
    (snd (generate_insights (E := Sample.external)
            [("total", NumericCol [Some (inject_Z 7)])] "Total revenue?" "SELECT 1 FROM t"
            {| script := [Text " Revenue is 7. "]; prompts := [] |})) = 1.
Proof.
  split.
  - apply (proj1 (generate_insights_empty_short_circuit (E := Sample.external)
                    [] "Total revenue?" "SELECT 1 FROM t"
                    {| script := [Text "unused"]; prompts := [] |})).
    reflexivity.
  - apply (proj1 (proj2 (generate_insights_empty_short_circuit (E := Sample.external)
                    [("total", NumericCol [Some (inject_Z 7)])]
                    "Total revenue?" "SELECT 1 FROM t"
                    {| script := [Text " Revenue is 7. "]; prompts := [] |}))).
    reflexivity.
Defined.

(** C9: when the call of the service fails, or the text it gives, once
    trimmed and freed of its code fences, is refused by [json.loads],
    [generate_chart_spec] answers exactly the object with chart "table",
    x null, y null and title "Data Preview", and the service has been
    called once: one prompt sent, one reply used. *)
Theorem generate_chart_spec_fallback {E : External}
    (df : DataFrame) (question : string) (m : Model) :
  (script m = [] \/
   (exists msg rest, script m = Failure msg :: rest) \/
   (exists text rest e,
       script m = Text text :: rest /\
       json_loads (strip (drop_fences 0 (strip text))) = Raises e)) ->
  fst (generate_chart_spec df question m)
  = JObj [("chart", JStr "table"); ("x", JNull); ("y", JNull);
          ("title", JStr "Data Preview")] /\
  prompts (snd (generate_chart_spec df question m))
  = (prompts m ++ [chart_prompt df question])%list /\
  invocations (snd (generate_chart_spec df question m)) = S (invocations m) /\
  script (snd (generate_chart_spec df question m)) = tl (script m).
Proof.
  intros H. unfold generate_chart_spec, generate_content, invocations.
  destruct H as [-> | [[msg [rest ->]] | [text [rest [e [-> Hjson]]]]]]; simpl;
    try rewrite Hjson; simpl; rewrite length_app; simpl;
    repeat split; lia.
Qed.

Lemma generate_chart_spec_fallback_witness :
  (fst (generate_chart_spec (E := Sample.external) [] "Revenue by year"
          {| script := [Text "Here is the chart: {oops"; Text "null"]; prompts := [] |})
   = JObj [("chart", JStr "table"); ("x", JNull); ("y", JNull);
          ("title", JStr "Data Preview")] /\
   prompts (snd (generate_chart_spec (E := Sample.external) [] "Revenue by year"
          {| script := [Text "Here is the chart: {oops"; Text "null"]; prompts := [] |}))
   = ([] ++ [chart_prompt (External := Sample.external) [] "Revenue by year"])%list /\
   invocations (snd (generate_chart_spec (E := Sample.external) [] "Revenue by year"
          {| script := [Text "Here is the chart: {oops"; Text "null"]; prompts := [] |}))
   = 1 /\
   script (snd (generate_chart_spec (E := Sample.external) [] "Revenue by year"
          {| script := [Text "Here is the chart: {oops"; Text "null"]; prompts := [] |}))
   = [Text "null"]) /\
  fst (generate_chart_spec (E := Sample.external) [] "Revenue by year"
         {| script := [Failure "quota exceeded"]; prompts := [] |})
  = JObj [("chart", JStr "table"); ("x", JNull); ("y", JNull);
          ("title", JStr "Data Preview")].
Proof.
  split.
  - apply (generate_chart_spec_fallback (E := Sample.external) [] "Revenue by year"
             {| script := [Text "Here is the chart: {oops"; Text "null"]; prompts := [] |}).
    right; right. do 3 eexists. split; reflexivity.
  - apply (generate_chart_spec_fallback (E := Sample.external) [] "Revenue by year"
             {| script := [Failure "quota exceeded"]; prompts := [] |}).
    right; left. do 2 eexists. reflexivity.
Defined.


(** * Further properties of the code *)

(** ** More on strings *)

Lemma sapp_assoc (a b c : string) : (a ++ b) ++ c = a ++ b ++ c.
Proof. induction a as [|x a IH]; simpl; [reflexivity | now rewrite IH]. Qed.

Lemma sapp_nil_r (a : string) : a ++ "" = a.
Proof. induction a as [|x a IH]; simpl; [reflexivity | now rewrite IH]. Qed.

Lemma prefix_app_l (k u w : string) :
  String.prefix k u = true -> String.prefix k (u ++ w) = true.
Proof.
  rewrite !prefix_StartsWith. intros [q ->]. exists (q ++ w). apply sapp_assoc.
Qed.

(** A prefix that avoids the character after [u] lies within [u]. *)
Lemma prefix_cut_char (k u w : string) (c : ascii) :
  String.prefix k (u ++ String c w) = true ->
  mem_char c k = false ->
  String.prefix k u = true.
Proof.
  revert u. induction k as [|a k IH]; intros u Hp Hc.
  - destruct u; reflexivity.
  - simpl in Hc. apply orb_false_iff in Hc as [Hca Hck].
    destruct u as [|b u]; simpl in Hp |- *.
    + destruct (ascii_dec a c) as [<-|]; [|discriminate Hp].
      now rewrite Ascii.eqb_refl in Hca.
    + destruct (ascii_dec a b); [|discriminate Hp]. now apply IH.
Qed.

Lemma prefix_cut (k u v : string) :
  String.prefix k (u ++ v) = true ->
  (forall c, mem_char c v = true -> mem_char c k = false) ->
  String.prefix k u = true.
Proof.
  destruct v as [|c w]; intros Hp Hv.
  - now rewrite sapp_nil_r in Hp.
  - apply (prefix_cut_char k u w c Hp). apply Hv. simpl. now rewrite Ascii.eqb_refl.
Qed.

Lemma contains_cut_char (k u w : string) (c : ascii) :
  contains k (u ++ String c w) = true ->
  mem_char c k = false ->
  contains k u = true \/ contains k w = true.
Proof.
  intros Hk Hc. induction u as [|b u IH].
  - cbn [append contains] in Hk. apply orb_true_iff in Hk as [Hp | Hw]; [|now right].
    left. apply (prefix_cut_char k "" w c) in Hp; [|exact Hc].
    cbn [contains]. now rewrite Hp.
  - change (String b u ++ String c w) with (String b (u ++ String c w)) in Hk.
    cbn [contains] in Hk. apply orb_true_iff in Hk as [Hp | Hrest].
    + left. cbn [contains].
      change (String b (u ++ String c w)) with (String b u ++ String c w) in Hp.
      rewrite (prefix_cut_char k (String b u) w c Hp Hc). reflexivity.
    + destruct (IH Hrest) as [Hu | Hw]; [left | now right].
      cbn [contains]. rewrite Hu. apply orb_true_r.
Qed.

Lemma contains_app_l (k u w : string) :
  contains k u = true -> contains k (u ++ w) = true.
Proof.
  rewrite !contains_Substring. intros [p [q ->]].
  exists p, (q ++ w). now rewrite !sapp_assoc.
Qed.

Lemma mem_char_replicate (c d : ascii) (n : nat) :
  mem_char c (replicate n d) = true -> c = d.
Proof.
  induction n as [|n IH]; simpl; [discriminate|].
  rewrite orb_true_iff. intros [H | H]; [now apply Ascii.eqb_eq | now apply IH].
Qed.

Lemma lower_semicolons (n : nat) :
  lower (replicate n ";"%char) = replicate n ";"%char.
Proof. induction n as [|n IH]; simpl; [reflexivity | now rewrite IH]. Qed.

Lemma lstrip_by_app (p : ascii -> bool) (a y : string) :
  lstrip_by p a <> EmptyString ->
  lstrip_by p (a ++ y) = lstrip_by p a ++ y.
Proof.
  induction a as [|c a IH]; simpl; [congruence|].
  destruct (p c); [exact IH | reflexivity].
Qed.

Lemma lstrip_by_app_blank (p : ascii -> bool) (a y : string) :
  lstrip_by p a = EmptyString ->
  lstrip_by p (a ++ y) = lstrip_by p y.
Proof.
  induction a as [|c a IH]; simpl; [reflexivity|].
  destruct (p c); [exact IH | discriminate].
Qed.

Lemma rstrip_by_app (p : ascii -> bool) (x y : string) :
  rstrip_by p y <> EmptyString ->
  rstrip_by p (x ++ y) = x ++ rstrip_by p y.
Proof.
  intros Hy. induction x as [|c x IH]; simpl; [reflexivity|].
  rewrite IH. destruct (x ++ rstrip_by p y) as [|d r] eqn:Hx; [|reflexivity].
  destruct x; [simpl in Hx; congruence | discriminate Hx].
Qed.

Lemma rstrip_by_keeps_prefix (p : ascii -> bool) (k x : string) :
  String.prefix k x = true ->
  (forall c, mem_char c k = true -> p c = false) ->
  String.prefix k (rstrip_by p x) = true.
Proof.
  revert x. induction k as [|a k IH]; intros x Hp Hk.
  - destruct (rstrip_by p x); reflexivity.
  - destruct x as [|b x]; [discriminate Hp|]. simpl in Hp.
    destruct (ascii_dec a b) as [<-|]; [|discriminate Hp].
    assert (Ha : p a = false).
    { apply Hk. simpl. now rewrite Ascii.eqb_refl. }
    assert (IHx : String.prefix k (rstrip_by p x) = true).
    { apply IH; [exact Hp|]. intros c Hc. apply Hk. simpl. now rewrite Hc, orb_true_r. }
    simpl. destruct (rstrip_by p x) as [|d r].
    + rewrite Ha. simpl. destruct (ascii_dec a a); [|congruence].
      destruct k; [reflexivity | discriminate IHx].
    + simpl. destruct (ascii_dec a a); [exact IHx | congruence].
Qed.

Lemma prefix_of_rstrip (p : ascii -> bool) (k x : string) :
  String.prefix k (rstrip_by p x) = true -> String.prefix k x = true.
Proof.
  intros H. destruct (rstrip_by_split p x) as [tail [Hx _]].
  rewrite Hx. now apply prefix_app_l.
Qed.

(** A text that starts with select still does once trimmed. *)
Lemma strip_keeps_select (x : string) :
  String.prefix "select" x = true -> String.prefix "select" (strip x) = true.
Proof.
  intros H. unfold strip.
  assert (Hl : lstrip_by isspace x = x).
  { destruct x as [|c x]; [discriminate H|]. cbn [String.prefix] in H.
    destruct (ascii_dec "s" c) as [<-|]; [reflexivity | discriminate H]. }
  rewrite Hl. apply rstrip_by_keeps_prefix; [exact H|].
  intros c Hc. simpl in Hc.
  repeat (apply orb_true_iff in Hc as [Hc | Hc];
          [apply Ascii.eqb_eq in Hc; subst c; reflexivity|]).
  discriminate Hc.
Qed.

(** [enforce_limit] keeps a trimmed, lower-cased text starting with
    select. *)
Lemma enforce_limit_keeps_select (s : string) :
  String.prefix "select" (strip (lower s)) = true ->
  String.prefix "select" (strip (lower (enforce_limit s))) = true.
Proof.
  intros Hsel. unfold enforce_limit.
  destruct (contains "limit" (lower s)); [exact Hsel|].
  destruct (contains "from" (lower s)
            && (contains "group by" (lower s)
                || negb (existsb (fun k => contains k (lower s)) aggregate_keywords)));
    [|exact Hsel].
  destruct (rstrip_semicolons s) as [n [Hs _]].
  set (b := rstrip ";" s) in *.
  assert (HL : lower s = lower b ++ replicate n ";"%char).
  { rewrite Hs at 1. now rewrite lower_app, lower_semicolons. }
  unfold strip in Hsel. apply prefix_of_rstrip in Hsel. rewrite HL in Hsel.
  assert (Hne : lstrip_by isspace (lower b) <> EmptyString).
  { intros Hblank. rewrite (lstrip_by_app_blank _ _ _ Hblank) in Hsel.
    destruct n; simpl in Hsel; discriminate Hsel. }
  rewrite (lstrip_by_app _ _ _ Hne) in Hsel.
  apply prefix_cut in Hsel.
  - unfold strip. rewrite lower_app, (lstrip_by_app _ _ _ Hne).
    rewrite rstrip_by_app; [|discriminate]. now apply prefix_app_l.
  - intros c Hc. apply mem_char_replicate in Hc. now subst c.
Qed.

Lemma forbidden_absent_from_clause (k : string) :
  In k FORBIDDEN_SQL ->
  mem_char " "%char k = false /\ contains k "limit 50;" = false.
Proof.
  unfold FORBIDDEN_SQL; simpl; intros H.
  repeat (destruct H as [<- | H]; [split; reflexivity|]). destruct H.
Qed.

(** [enforce_limit] brings no forbidden keyword into a text without one. *)
Lemma enforce_limit_keeps_clean (s : string) :
  first_forbidden FORBIDDEN_SQL (lower s) = None ->
  first_forbidden FORBIDDEN_SQL (lower (enforce_limit s)) = None.
Proof.
  intros Hclean. unfold enforce_limit.
  destruct (contains "limit" (lower s)); [exact Hclean|].
  destruct (contains "from" (lower s)
            && (contains "group by" (lower s)
                || negb (existsb (fun k => contains k (lower s)) aggregate_keywords)));
    [|exact Hclean].
  destruct (rstrip_semicolons s) as [n [Hs _]].
  set (b := rstrip ";" s) in *.
  assert (HL : lower s = lower b ++ replicate n ";"%char).
  { rewrite Hs at 1. now rewrite lower_app, lower_semicolons. }
  rewrite first_forbidden_none in Hclean |- *.
  intros k Hin Hsub. apply (Hclean k Hin).
  destruct (forbidden_absent_from_clause k Hin) as [Hsp Hcl].
  rewrite lower_app in Hsub. apply contains_Substring in Hsub.
  change (lower " LIMIT 50;") with (String " "%char "limit 50;") in Hsub.
  apply contains_cut_char in Hsub; [|exact Hsp].
  destruct Hsub as [Hb | Hc]; [|congruence].
  apply contains_Substring. rewrite HL. now apply contains_app_l.
Qed.

Lemma enforce_limit_nonempty (s : string) :
  truthy s = true -> truthy (enforce_limit s) = true.
Proof.
  intros Hs. unfold enforce_limit.
  destruct (contains "limit" (lower s)); [exact Hs|].
  destruct (contains "from" (lower s) && _); [|exact Hs].
  destruct (rstrip ";" s); reflexivity.
Qed.

(** ** validate_sql and enforce_limit together *)

(** X1: what [validate_sql] returns is its argument, and a returned
    statement is not empty, holds no forbidden keyword in its lower-cased
    text and starts, trimmed and lower-cased, with select. *)
Theorem validate_sql_returns_only_safe (sql : option string) (r : string) :
  validate_sql sql = Returns r ->
  sql = Some r /\ r <> EmptyString /\
  (forall k, In k FORBIDDEN_SQL -> ~ Substring k (lower r)) /\
  StartsWith "select" (strip (lower r)).
Proof.
  unfold validate_sql. destruct sql as [s|]; [|discriminate].
  destruct s as [|c s]; [discriminate|]. cbn [truthy negb].
  destruct (first_forbidden FORBIDDEN_SQL (lower (String c s))) eqn:Hscan;
    [discriminate|].
  unfold startswith.
  destruct (String.prefix "select" (strip (lower (String c s)))) eqn:Hsel;
    [|discriminate].
  cbn [negb]. intros H; injection H as <-.
  repeat split; [discriminate | now apply first_forbidden_none
                | now apply prefix_StartsWith].
Qed.

Lemma validate_sql_returns_only_safe_witness :
  Some "SELECT a FROM t" = Some "SELECT a FROM t" /\
  "SELECT a FROM t" <> EmptyString /\
  (forall k, In k FORBIDDEN_SQL -> ~ Substring k (lower "SELECT a FROM t")) /\
  StartsWith "select" (strip (lower "SELECT a FROM t")).
Proof.
  apply (validate_sql_returns_only_safe (Some "SELECT a FROM t") "SELECT a FROM t").
  reflexivity.
Defined.

(** X2: a statement that [validate_sql] accepts is still accepted after
    [enforce_limit] has rewritten it. *)
Theorem enforce_limit_keeps_valid (s : string) :
  validate_sql (Some s) = Returns s ->
  validate_sql (Some (enforce_limit s)) = Returns (enforce_limit s).
Proof.
  unfold validate_sql at 1. destruct (truthy s) eqn:Hs; [|discriminate].
  cbn [negb].
  destruct (first_forbidden FORBIDDEN_SQL (lower s)) eqn:Hscan; [discriminate|].
  unfold startswith.
  destruct (String.prefix "select" (strip (lower s))) eqn:Hsel; [|discriminate].
  intros _. unfold validate_sql, startswith.
  rewrite (enforce_limit_nonempty s Hs), (enforce_limit_keeps_clean s Hscan),
    (enforce_limit_keeps_select s Hsel).
  reflexivity.
Qed.

Lemma enforce_limit_keeps_valid_witness :
  validate_sql (Some (enforce_limit "  Select a From t;"))
  = Returns (enforce_limit "  Select a From t;").
Proof.
  apply (enforce_limit_keeps_valid "  Select a From t;"). reflexivity.
Defined.

(** X3: after [enforce_limit], a statement with from that is grouped or
    free of aggregate calls has limit in its lower-cased text. *)
Theorem enforce_limit_bounds_rows (s : string) :
  Substring "from" (lower s) ->
  (Substring "group by" (lower s) \/
   forall k, In k aggregate_keywords -> ~ Substring k (lower s)) ->
  Substring "limit" (lower (enforce_limit s)).
Proof.
  intros Hfrom Hgrp. apply contains_Substring. unfold enforce_limit.
  destruct (contains "limit" (lower s)) eqn:Hlim; [exact Hlim|].
  apply contains_Substring in Hfrom. rewrite Hfrom. cbn [andb].
  assert (Hguard : contains "group by" (lower s)
                   || negb (existsb (fun k => contains k (lower s)) aggregate_keywords)
                   = true).
  { destruct Hgrp as [Hg | Hagg].
    - apply contains_Substring in Hg. now rewrite Hg.
    - apply existsb_contains_false in Hagg. rewrite Hagg. apply orb_true_r. }
  rewrite Hguard, lower_app. apply contains_app_r. reflexivity.
Qed.

Lemma enforce_limit_bounds_rows_witness :
  Substring "limit" (lower (enforce_limit "SELECT a FROM t")).
Proof.
  apply (enforce_limit_bounds_rows "SELECT a FROM t").
  - apply contains_Substring; reflexivity.
  - right. apply existsb_contains_false; reflexivity.
Defined.

(** ** More on force_numeric *)

Section ForceNumericMore.
Context {E : External}.
Local Open Scope list_scope.

Lemma coerce_column_len (c : column) :
  Frame.col_len (coerce_column c) = Frame.col_len c.
Proof.
  destruct c as [vals | vals | vals]; simpl; try reflexivity.
  destruct (forallb isna (to_numeric vals)); simpl; [reflexivity|].
  unfold to_numeric. apply length_map.
Qed.

Lemma coerce_column_twice (c : column) :
  coerce_column (coerce_column c) = coerce_column c.
Proof.
  destruct c as [vals | vals | vals]; simpl; try reflexivity.
  destruct (forallb isna (to_numeric vals)) eqn:H; simpl; [|reflexivity].
  now rewrite H.
Qed.

Lemma force_numeric_columns (df : DataFrame) :
  NoDup (Frame.columns df) ->
  Frame.columns (force_numeric df) = Frame.columns df.
Proof.
  intros Hnd. rewrite (force_numeric_map df Hnd). apply columns_coerced.
Qed.

End ForceNumericMore.

(** X4: on a table with distinct labels [force_numeric] keeps the labels
    in their order, the length of every column, the number of rows and
    whether the table is empty. *)
Theorem force_numeric_keeps_shape {E : External} (df : DataFrame) :
  NoDup (Frame.columns df) ->
  Frame.columns (force_numeric df) = Frame.columns df /\
  Forall2 (fun inp out => Frame.col_len (snd out) = Frame.col_len (snd inp))
          df (force_numeric df) /\
  Frame.len (force_numeric df) = Frame.len df /\
  Frame.empty (force_numeric df) = Frame.empty df.
Proof.
  intros Hnd. split; [now apply force_numeric_columns|].
  rewrite (force_numeric_map df Hnd). repeat split.
  - clear Hnd. induction df as [|[n c] df IH]; constructor; [|exact IH].
    apply coerce_column_len.
  - destruct df as [|[n c] df]; [reflexivity|]. simpl. apply coerce_column_len.
  - destruct df as [|[n c] df]; [reflexivity|]. simpl.
    now rewrite coerce_column_len.
Qed.

Lemma force_numeric_keeps_shape_witness :
  Frame.columns (force_numeric (E := Sample.external)
                   [("units", ObjectCol [PStr "1"; PStr "x"]);
                    ("region", ObjectCol [PStr "north"; PNone])])
  = Frame.columns [("units", ObjectCol [PStr "1"; PStr "x"]);
                   ("region", ObjectCol [PStr "north"; PNone])] /\
  Forall2 (fun inp out => Frame.col_len (snd out) = Frame.col_len (snd inp))
          [("units", ObjectCol [PStr "1"; PStr "x"]);
           ("region", ObjectCol [PStr "north"; PNone])]
          (force_numeric (E := Sample.external)
             [("units", ObjectCol [PStr "1"; PStr "x"]);
              ("region", ObjectCol [PStr "north"; PNone])]) /\
  Frame.len (force_numeric (E := Sample.external)
               [("units", ObjectCol [PStr "1"; PStr "x"]);
                ("region", ObjectCol [PStr "north"; PNone])])
  = Frame.len [("units", ObjectCol [PStr "1"; PStr "x"]);
               ("region", ObjectCol [PStr "north"; PNone])] /\
  Frame.empty (force_numeric (E := Sample.external)
                 [("units", ObjectCol [PStr "1"; PStr "x"]);
                  ("region", ObjectCol [PStr "north"; PNone])])
  = Frame.empty [("units", ObjectCol [PStr "1"; PStr "x"]);
                 ("region", ObjectCol [PStr "north"; PNone])].
Proof.
  apply (force_numeric_keeps_shape (E := Sample.external)
           [("units", ObjectCol [PStr "1"; PStr "x"]);
            ("region", ObjectCol [PStr "north"; PNone])]).
  repeat constructor; simpl; intuition discriminate.
Defined.

(** X5: on a table with distinct labels a second pass of [force_numeric]
    changes nothing. *)
Theorem force_numeric_idempotent {E : External} (df : DataFrame) :
  NoDup (Frame.columns df) ->
  force_numeric (force_numeric df) = force_numeric df.
Proof.
  intros Hnd.
  rewrite (force_numeric_map (force_numeric df)).
  - rewrite (force_numeric_map df Hnd). rewrite map_map. apply map_ext.
    intros [n c]. unfold coerce_entry. simpl. now rewrite coerce_column_twice.
  - now rewrite force_numeric_columns.
Qed.

Lemma force_numeric_idempotent_witness :
  force_numeric (E := Sample.external)
    (force_numeric (E := Sample.external)
       [("units", ObjectCol [PStr "1"; PStr "x"]);
        ("region", ObjectCol [PStr "north"; PNone])])
  = force_numeric (E := Sample.external)
      [("units", ObjectCol [PStr "1"; PStr "x"]);
       ("region", ObjectCol [PStr "north"; PNone])].
Proof.
  apply (force_numeric_idempotent (E := Sample.external)
           [("units", ObjectCol [PStr "1"; PStr "x"]);
            ("region", ObjectCol [PStr "north"; PNone])]).
  repeat constructor; simpl; intuition discriminate.
Defined.

(** ** Schema introspection: grouping and tolerated failures *)

Section SchemaFacts.
Local Open Scope list_scope.

Lemma has_table_In (t : string) (schema : schema_t) :
  has_table t schema = true <-> In t (map fst schema).
Proof.
  induction schema as [|[t0 info] schema IH]; simpl; [split; [discriminate | tauto]|].
  rewrite orb_true_iff, String.eqb_eq, IH. tauto.
Qed.

Lemma update_table_keys (t : string) (f : table_info -> table_info)
    (schema : schema_t) :
  map fst (update_table t f schema) = map fst schema.
Proof.
  induction schema as [|[t0 info] schema IH]; simpl; [reflexivity|].
  destruct (String.eqb t0 t); simpl; [reflexivity | now rewrite IH].
Qed.

Lemma update_table_absent (t : string) (f : table_info -> table_info)
    (schema : schema_t) (info : table_info) :
  ~ In t (map fst schema) ->
  update_table t f (schema ++ [(t, info)]) = schema ++ [(t, f info)].
Proof.
  induction schema as [|[t0 info0] schema IH]; simpl; intros H.
  - now rewrite String.eqb_refl.
  - destruct (String.eqb t0 t) eqn:Ht.
    + apply String.eqb_eq in Ht. tauto.
    + rewrite IH; tauto.
Qed.

(** With distinct keys, an entry of the updated schema is the updated
    entry of the table or an entry of another table. *)
Lemma update_table_entries (t : string) (f : table_info -> table_info)
    (schema : schema_t) (t' : string) (info' : table_info) :
  NoDup (map fst schema) ->
  In (t', info') (update_table t f schema) ->
  (t' = t /\ exists info, In (t, info) schema /\ info' = f info) \/
  (t' <> t /\ In (t', info') schema).
Proof.
  induction schema as [|[t0 info0] schema IH]; simpl; [tauto|].
  intros Hnd Hin. inversion Hnd as [|? ? Hfresh Hnd']; subst.
  destruct (String.eqb t0 t) eqn:Ht.
  - apply String.eqb_eq in Ht. subst t0. destruct Hin as [Heq | Hin].
    + injection Heq as <- <-. left. split; [reflexivity|]. exists info0. tauto.
    + right. split; [|tauto]. intros ->. apply Hfresh.
      apply (in_map fst) in Hin. exact Hin.
  - apply String.eqb_neq in Ht. destruct Hin as [Heq | Hin].
    + injection Heq as <- <-. right. split; [exact Ht | tauto].
    + destruct (IH Hnd' Hin) as [[-> [info [Hi ->]]] | [Hne Hi]].
      * left. split; [reflexivity|]. exists info. tauto.
      * right. tauto.
Qed.

Lemma rows_of_absent (t : string) (rows : list meta_row) :
  ~ In t (map table_name rows) -> rows_of t rows = [].
Proof.
  induction rows as [|r rows IH]; simpl; [reflexivity|]. intros H.
  destruct (String.eqb (table_name r) t) eqn:Ht.
  - apply String.eqb_eq in Ht. tauto.
  - apply IH. tauto.
Qed.

Lemma add_meta_row_grouped (rows : list meta_row) (schema : schema_t)
    (row : meta_row) :
  grouped rows schema -> grouped (rows ++ [row]) (add_meta_row schema row).
Proof.
  intros [Hnd [Hkeys Hcols]]. unfold add_meta_row.
  set (t := table_name row).
  set (f := append_column _).
  assert (Hf : forall info, columns (f info) = columns info ++ [column_of_row row]
                            /\ sample_data (f info) = sample_data info
                            /\ row_count (f info) = row_count info).
  { intros info. repeat split. }
  assert (Hsnoc : forall t', rows_of t' (rows ++ [row])
                  = rows_of t' rows ++ (if String.eqb t t' then [row] else [])).
  { intros t'. unfold rows_of. rewrite filter_app. simpl. reflexivity. }
  destruct (has_table t schema) eqn:Hhas; cbn [negb].
  - apply has_table_In in Hhas. repeat split.
    + now rewrite update_table_keys.
    + rewrite update_table_keys, map_app, in_app_iff, Hkeys. simpl. tauto.
    + rewrite update_table_keys, map_app, in_app_iff, Hkeys. simpl.
      intros [H | [<- | []]]; [exact H | now apply Hkeys].
    + destruct (update_table_entries _ _ _ _ _ Hnd H) as [[-> [i [Hi ->]]] | [Hne Hi]].
      * destruct (Hcols _ _ Hi) as [Hc _]. destruct (Hf i) as [-> _].
        rewrite Hc, Hsnoc, String.eqb_refl, map_app. reflexivity.
      * destruct (Hcols _ _ Hi) as [Hc _]. rewrite Hc, Hsnoc.
        apply not_eq_sym, String.eqb_neq in Hne. rewrite Hne, app_nil_r. reflexivity.
    + destruct (update_table_entries _ _ _ _ _ Hnd H) as [[-> [i [Hi ->]]] | [Hne Hi]].
      * destruct (Hf i) as [_ [-> _]]. now destruct (Hcols _ _ Hi) as [_ [? _]].
      * now destruct (Hcols _ _ Hi) as [_ [? _]].
    + destruct (update_table_entries _ _ _ _ _ Hnd H) as [[-> [i [Hi ->]]] | [Hne Hi]].
      * destruct (Hf i) as [_ [_ ->]]. now destruct (Hcols _ _ Hi) as [_ [_ ?]].
      * now destruct (Hcols _ _ Hi) as [_ [_ ?]].
  - assert (Hfresh : ~ In t (map fst schema)).
    { rewrite <- has_table_In. congruence. }
    rewrite (update_table_absent t f schema new_table Hfresh).
    repeat split.
    + rewrite map_app. simpl. apply NoDup_app; [exact Hnd | repeat constructor; tauto |].
      intros a Ha [<- | []]. exact (Hfresh Ha).
    + rewrite !map_app, !in_app_iff, Hkeys. simpl. tauto.
    + rewrite !map_app, !in_app_iff, Hkeys. simpl. tauto.
    + apply in_app_iff in H as [Hi | [Heq | []]].
      * destruct (Hcols _ _ Hi) as [Hc _]. rewrite Hc, Hsnoc.
        destruct (String.eqb t t0) eqn:Ht; [|now rewrite app_nil_r].
        apply String.eqb_eq in Ht. subst t0. exfalso. apply Hfresh.
        apply (in_map fst) in Hi. exact Hi.
      * injection Heq as <- <-. rewrite Hsnoc, String.eqb_refl.
        rewrite rows_of_absent; [reflexivity|]. now rewrite <- Hkeys.
    + apply in_app_iff in H as [Hi | [Heq | []]].
      * now destruct (Hcols _ _ Hi) as [_ [? _]].
      * injection Heq as <- <-. reflexivity.
    + apply in_app_iff in H as [Hi | [Heq | []]].
      * now destruct (Hcols _ _ Hi) as [_ [_ ?]].
      * injection Heq as <- <-. reflexivity.
Qed.

Lemma fold_add_meta_row_grouped (rows : list meta_row) :
  grouped rows (fold_left add_meta_row rows []).
Proof.
  induction rows as [|row rows IH] using rev_ind.
  - split; [constructor | split; [simpl; tauto | intros t info []]].
  - rewrite fold_left_app. simpl. now apply add_meta_row_grouped.
Qed.

End SchemaFacts.

Section FillTableFacts.
Context {E : External}.
Variable store : Store.

Lemma fetch_df_raises (sql : string) (e : exn) :
  execute store sql = Raises e -> fetch_df store sql = Raises e.
Proof. unfold fetch_df. now intros ->. Qed.

Lemma fill_table_columns (t : string) (info : table_info) :
  columns (fill_table store t info) = columns info.
Proof.
  unfold fill_table.
  destruct (fetch_df store ("SELECT COUNT(*) as count FROM " ++ t)) as [count_df|];
    [|reflexivity].
  destruct (negb (Frame.empty count_df)).
  - destruct (first_count count_df) as [n|]; [|reflexivity].
    destruct (fetch_df store ("SELECT * FROM " ++ t ++ " LIMIT 3")) as [sample_df|];
      [|reflexivity].
    destruct (negb (Frame.empty sample_df)); reflexivity.
  - destruct (fetch_df store ("SELECT * FROM " ++ t ++ " LIMIT 3")) as [sample_df|];
      [|reflexivity].
    destruct (negb (Frame.empty sample_df)); reflexivity.
Qed.

Lemma fill_table_count_fails (t : string) (info : table_info) (e : exn) :
  execute store ("SELECT COUNT(*) as count FROM " ++ t) = Raises e ->
  fill_table store t info = info.
Proof.
  intros H. unfold fill_table. now rewrite (fetch_df_raises _ _ H).
Qed.

Lemma fill_table_sample_fails (t : string) (info : table_info) (e : exn) :
  execute store ("SELECT * FROM " ++ t ++ " LIMIT 3") = Raises e ->
  sample_data (fill_table store t info) = sample_data info.
Proof.
  intros H. unfold fill_table. rewrite (fetch_df_raises _ _ H).
  destruct (fetch_df store ("SELECT COUNT(*) as count FROM " ++ t)) as [count_df|];
    [|reflexivity].
  destruct (negb (Frame.empty count_df)); [|reflexivity].
  destruct (first_count count_df); reflexivity.
Qed.

(** The entries [get_schema_detailed] returns are the grouped entries,
    each passed through [fill_table]. *)
Lemma get_schema_detailed_entries (rows : list meta_row) :
  metadata_query store = Returns rows ->
  exists grouped_schema,
    grouped rows grouped_schema /\
    get_schema_detailed store
    = Returns (map (fun entry => (fst entry, fill_table store (fst entry) (snd entry)))
                   grouped_schema).
Proof.
  intros H. exists (fold_left add_meta_row rows []).
  split; [apply fold_add_meta_row_grouped|].
  unfold get_schema_detailed. now rewrite H.
Qed.

End FillTableFacts.

(** X6: when the metadata query answers, [get_schema_detailed] returns
    one entry per table named in the rows, each table once, and the
    columns of a table are its rows in the order of the answer, whatever
    the per-table queries do. *)
Theorem get_schema_detailed_groups_columns {E : External}
    (store : Store) (rows : list meta_row) :
  metadata_query store = Returns rows ->
  exists schema,
    get_schema_detailed store = Returns schema /\
    NoDup (map fst schema) /\
    (forall t, In t (map fst schema) <-> In t (map table_name rows)) /\
    (forall t info,
        In (t, info) schema ->
        columns info
        = map (fun row => {| name := column_name row; type := data_type row;
                             full_type := column_type row |})
              (filter (fun row => String.eqb (table_name row) t) rows)).
Proof.
  intros H.
  destruct (get_schema_detailed_entries store rows H) as [g [[Hnd [Hkeys Hcols]] Hg]].
  eexists. split; [exact Hg|].
  assert (Hfst : map fst (map (fun entry : string * table_info =>
                     (fst entry, fill_table store (fst entry) (snd entry))) g)
                 = map fst g).
  { rewrite map_map. reflexivity. }
  rewrite Hfst. repeat split; try assumption; try (now apply Hkeys).
  intros t info Hin. apply in_map_iff in Hin as [[t0 i0] [Heq Hin]].
  simpl in Heq. injection Heq as <- <-.
  rewrite fill_table_columns. now destruct (Hcols _ _ Hin) as [-> _].
Qed.

Lemma get_schema_detailed_groups_columns_witness :
  exists schema,
    get_schema_detailed (E := Sample.external) Sample.one_table_store = Returns schema /\
    NoDup (map fst schema) /\
    (forall t, In t (map fst schema) <-> In t ["pnl_data"; "pnl_data"]) /\
    (forall t info,
        In (t, info) schema ->
        columns info
        = map (fun row => {| name := column_name row; type := data_type row;
                             full_type := column_type row |})
              (filter (fun row => String.eqb (table_name row) t)
                 [ {| table_name := "pnl_data"; column_name := "Revenue";
                      data_type := "int"; column_type := "int(11)" |};
                   {| table_name := "pnl_data"; column_name := "year";
                      data_type := "int"; column_type := "int(11)" |} ])).
Proof.
  exact (get_schema_detailed_groups_columns (E := Sample.external)
           Sample.one_table_store
           [ {| table_name := "pnl_data"; column_name := "Revenue";
                data_type := "int"; column_type := "int(11)" |};
             {| table_name := "pnl_data"; column_name := "year";
                data_type := "int"; column_type := "int(11)" |} ]
           eq_refl).
Defined.

(** X7: a table whose count query fails is still listed, with a row
    count of 0 and no sample; a table whose sample query fails is listed
    without a sample. *)
Theorem get_schema_detailed_tolerates_table_failures {E : External}
    (store : Store) (schema : schema_t) (t : string) (info : table_info) :
  get_schema_detailed store = Returns schema ->
  In (t, info) schema ->
  ((exists e, execute store ("SELECT COUNT(*) as count FROM " ++ t) = Raises e) ->
   row_count info = 0%Z /\ sample_data info = None) /\
  ((exists e, execute store ("SELECT * FROM " ++ t ++ " LIMIT 3") = Raises e) ->
   sample_data info = None).
Proof.
  intros Hs Hin.
  destruct (metadata_query store) as [rows|e0] eqn:Hm.
  - destruct (get_schema_detailed_entries store rows Hm) as [g [[_ [_ Hcols]] Hg]].
    rewrite Hg in Hs. injection Hs as <-.
    apply in_map_iff in Hin as [[t0 i0] [Heq Hin]]. simpl in Heq.
    injection Heq as <- <-. destruct (Hcols _ _ Hin) as [_ [Hsample Hcount]].
    split.
    + intros [e He]. rewrite (fill_table_count_fails store t0 i0 e He). tauto.
    + intros [e He]. now rewrite (fill_table_sample_fails store t0 i0 e He).
  - unfold get_schema_detailed in Hs. rewrite Hm in Hs. injection Hs as <-.
    destruct Hin.
Qed.

Lemma get_schema_detailed_tolerates_table_failures_witness :
  row_count {| columns := [{| name := "amount"; type := "int"; full_type := "int(11)" |}];
               sample_data := None; row_count := 0 |} = 0%Z /\
  sample_data {| columns := [{| name := "amount"; type := "int"; full_type := "int(11)" |}];
                 sample_data := None; row_count := 0 |} = None.
Proof.
  refine (proj1 (get_schema_detailed_tolerates_table_failures (E := Sample.external)
            {| metadata_query :=
                 Returns [ {| table_name := "ledger"; column_name := "amount";
                              data_type := "int"; column_type := "int(11)" |} ];
               execute := fun _ => Raises (OtherError "SELECT command denied") |}
            _ "ledger" _ eq_refl _) _).
  - left. reflexivity.
  - eexists. reflexivity.
Defined.

(** X8: [process_query] goes past its schema step only when the metadata
    query gave at least one row; the text it then prompts with is the one
    [get_schema_text] returns, it is not empty and has no warning sign. *)
Theorem process_query_schema_passes_only_tables {E : External}
    (store : Store) (schema_text : string) :
  process_query_schema store = inr schema_text ->
  (exists row rows, metadata_query store = Returns (row :: rows)) /\
  get_schema_text store = Returns schema_text /\
  schema_text <> EmptyString /\
  ~ Substring "⚠️" schema_text.
Proof.
  unfold process_query_schema.
  destruct (get_schema_text store) as [text|[msg|msg]] eqn:Htext; try discriminate.
  destruct (truthy text) eqn:Htruthy; cbn [negb orb]; [|discriminate].
  destruct (contains "⚠️" text) eqn:Hwarn; [discriminate|].
  intros H; injection H as <-. repeat split.
  - unfold get_schema_text, get_schema_detailed in Htext.
    destruct (metadata_query store) as [[|row rows]|e].
    + simpl in Htext. injection Htext as <-. discriminate Hwarn.
    + eauto.
    + injection Htext as <-. discriminate Hwarn.
  - intros ->. discriminate Htruthy.
  - now apply not_contains_Substring.
Qed.

Lemma process_query_schema_passes_only_tables_witness :
  (exists row rows, metadata_query Sample.one_table_store = Returns (row :: rows)) /\
  get_schema_text (E := Sample.external) Sample.one_table_store
  = Returns (join newline ["pnl_data:"; "  - Revenue (int)" ++ newline ++ "  - year (int)";
                           "  Rows: 1"; ""]) /\
  join newline ["pnl_data:"; "  - Revenue (int)" ++ newline ++ "  - year (int)";
                "  Rows: 1"; ""] <> EmptyString /\
  ~ Substring "⚠️" (join newline ["pnl_data:"; "  - Revenue (int)" ++ newline ++ "  - year (int)";
                                   "  Rows: 1"; ""]).
Proof.
  apply (process_query_schema_passes_only_tables (E := Sample.external)
           Sample.one_table_store). reflexivity.
Defined.

(** ** The clean-up of a reply in generate_sql *)

Lemma contains_char (c : ascii) (s : string) :
  contains (String c EmptyString) s = mem_char c s.
Proof.
  induction s as [|d s IH]; [reflexivity|].
  cbn [contains mem_char String.prefix]. rewrite IH.
  destruct (ascii_dec c d) as [->|Hcd].
  - rewrite Ascii.eqb_refl. now destruct s.
  - apply Ascii.eqb_neq in Hcd. now rewrite Hcd.
Qed.

Lemma absent_char (c : ascii) (s : string) :
  mem_char c s = false <-> ~ Substring (String c EmptyString) s.
Proof. rewrite <- not_contains_Substring, contains_char. tauto. Qed.

Lemma mem_char_app (c : ascii) (a b : string) :
  mem_char c (a ++ b) = mem_char c a || mem_char c b.
Proof.
  induction a as [|d a IH]; simpl; [reflexivity|]. now rewrite IH, orb_assoc.
Qed.

Lemma lstrip_by_absent (p : ascii -> bool) (c : ascii) (s : string) :
  mem_char c s = false -> mem_char c (lstrip_by p s) = false.
Proof.
  induction s as [|d s IH]; simpl; [reflexivity|]. intros H.
  destruct (p d); [|exact H]. apply IH. now apply orb_false_iff in H.
Qed.

Lemma rstrip_by_absent (p : ascii -> bool) (c : ascii) (s : string) :
  mem_char c s = false -> mem_char c (rstrip_by p s) = false.
Proof.
  intros H. destruct (rstrip_by_split p s) as [tail [Hs _]].
  rewrite Hs, mem_char_app in H. now apply orb_false_iff in H.
Qed.

Lemma strip_absent (c : ascii) (s : string) :
  mem_char c s = false -> mem_char c (strip s) = false.
Proof. intros H. now apply rstrip_by_absent, lstrip_by_absent. Qed.

Lemma drop_sql_fences_no_backtick (s : string) (skip : nat) :
  mem_char backtick (drop_sql_fences skip s) = false.
Proof.
  revert skip. induction s as [|c s IH]; intros skip; [reflexivity|].
  cbn [drop_sql_fences]. destruct skip as [|k]; [|apply IH].
  destruct (String.prefix "```sql" (lower (String c s))); [apply IH|].
  destruct (String.prefix "```" (String c s)); [apply IH|].
  destruct (String.prefix "`" (String c s)) eqn:Hp; [apply IH|].
  cbn [mem_char]. rewrite IH, orb_false_r.
  cbn [String.prefix] in Hp. apply Ascii.eqb_neq.
  destruct (ascii_dec "`" c) as [<-|Hne]; [now destruct s | exact Hne].
Qed.

Lemma split_lines_absent (c : ascii) (s : string) :
  mem_char c s = false ->
  Forall (fun line => mem_char c line = false) (split_lines s).
Proof.
  induction s as [|d s IH]; intros H.
  - repeat constructor.
  - simpl in H. apply orb_false_iff in H as [Hd Hs]. specialize (IH Hs).
    cbn [split_lines]. destruct (Ascii.eqb d (ascii_of_nat 10)).
    + constructor; [reflexivity | exact IH].
    + destruct (split_lines s) as [|line lines].
      * repeat constructor. simpl. now rewrite Hd.
      * inversion IH; subst. constructor; [|assumption]. simpl. now rewrite Hd.
Qed.

Lemma split_lines_no_newline (s : string) :
  Forall (fun line => mem_char (ascii_of_nat 10) line = false) (split_lines s).
Proof.
  induction s as [|d s IH]; [repeat constructor|].
  cbn [split_lines]. destruct (Ascii.eqb d (ascii_of_nat 10)) eqn:Hd.
  - constructor; [reflexivity | exact IH].
  - rewrite Ascii.eqb_sym in Hd. destruct (split_lines s) as [|line lines].
    + repeat constructor. cbn [mem_char]. now rewrite Hd.
    + inversion IH as [|? ? Hline Hlines]; subst. constructor; [|assumption].
      cbn [mem_char]. now rewrite Hd, Hline.
Qed.

Lemma statement_lines_absent (c : ascii) (s : string) :
  Forall (fun line => mem_char c line = false) (split_lines s) ->
  Forall (fun line => mem_char c line = false) (statement_lines s).
Proof.
  intros H. unfold statement_lines. apply Forall_map.
  rewrite Forall_forall in H |- *. intros line Hin.
  apply filter_In in Hin as [Hin _]. apply strip_absent. now apply H.
Qed.

Lemma join_absent (c : ascii) (sep : string) (parts : list string) :
  mem_char c sep = false ->
  Forall (fun part => mem_char c part = false) parts ->
  mem_char c (join sep parts) = false.
Proof.
  intros Hsep H. induction H as [|part parts Hp Hrest IH]; [reflexivity|].
  cbn [join]. destruct parts as [|q parts]; [exact Hp|].
  now rewrite !mem_char_app, Hp, Hsep, IH.
Qed.

Lemma until_semicolon_absent (c : ascii) (s : string) :
  mem_char c s = false -> mem_char c (until_semicolon s) = false.
Proof.
  induction s as [|d s IH]; simpl; [reflexivity|]. intros H.
  apply orb_false_iff in H as [Hd Hs].
  destruct (Ascii.eqb d ";"); simpl; [reflexivity | now rewrite Hd, IH].
Qed.

Lemma search_select_absent (c : ascii) (sql group1 : string) :
  mem_char c sql = false ->
  search_select sql = Some group1 ->
  mem_char c group1 = false.
Proof.
  induction sql as [|d sql IH]; [discriminate|]. intros H.
  cbn [search_select].
  destruct (String.prefix "select" (lower (String d sql)) && space_at 6 (String d sql)).
  - intros Hg. assert (Heq : group1 = until_semicolon (String d sql)) by congruence.
    rewrite Heq. now apply until_semicolon_absent.
  - apply IH. simpl in H. now apply orb_false_iff in H.
Qed.

(** The one-line text the clean-up builds, before the select test. *)
Lemma joined_lines_absent (text : string) :
  let joined :=
    join " " (statement_lines (strip (drop_sql_fences 0 (strip text)))) in
  mem_char backtick joined = false /\ mem_char (ascii_of_nat 10) joined = false.
Proof.
  split.
  - apply join_absent; [reflexivity|].
    apply statement_lines_absent, split_lines_absent, strip_absent.
    apply drop_sql_fences_no_backtick.
  - apply join_absent; [reflexivity|].
    apply statement_lines_absent, split_lines_no_newline.
Qed.

Lemma extract_sql_facts (text sql : string) :
  extract_sql text = Some sql ->
  String.prefix "select" (lower sql) = true /\
  mem_char backtick sql = false /\
  mem_char (ascii_of_nat 10) sql = false.
Proof.
  unfold extract_sql. cbv zeta.
  destruct (joined_lines_absent text) as [Htick Hnl].
  set (joined := join " " (statement_lines (strip (drop_sql_fences 0 (strip text))))) in *.
  assert (Hshape :
    forall candidate,
      mem_char backtick candidate = false ->
      mem_char (ascii_of_nat 10) candidate = false ->
      (if startswith (lower candidate) "select" then Some candidate else None)
      = Some sql ->
      String.prefix "select" (lower sql) = true /\
      mem_char backtick sql = false /\ mem_char (ascii_of_nat 10) sql = false).
  { intros candidate H1 H2. unfold startswith.
    destruct (String.prefix "select" (lower candidate)) eqn:Hp; [|discriminate].
    intros H; injection H as <-. now repeat split. }
  destruct (negb (startswith (lower joined) "select")); [|now apply Hshape].
  destruct (search_select joined) as [group1|] eqn:Hsearch; [|now apply Hshape].
  apply Hshape; apply strip_absent; eapply search_select_absent; eauto.
Qed.

(** X9: a statement the clean-up of a reply yields starts with select,
    whatever the case, and holds neither a backtick nor a line feed. *)
Theorem extract_sql_shape (text sql : string) :
  extract_sql text = Some sql ->
  StartsWith "select" (lower sql) /\
  ~ Substring "`" sql /\
  ~ Substring newline sql.
Proof.
  intros H. destruct (extract_sql_facts text sql H) as [Hp [Htick Hnl]].
  repeat split.
  - now apply prefix_StartsWith.
  - now apply (absent_char backtick).
  - now apply (absent_char (ascii_of_nat 10)).
Qed.

Lemma extract_sql_shape_witness :
  StartsWith "select" (lower "SELECT a FROM t") /\
  ~ Substring "`" "SELECT a FROM t" /\
  ~ Substring newline "SELECT a FROM t".
Proof.
  apply (extract_sql_shape
           ("Sure! Here it is:" ++ newline ++ "```sql" ++ newline
            ++ "SELECT `a`" ++ newline ++ "FROM t;" ++ newline ++ "```")
           "SELECT a FROM t").
  reflexivity.
Defined.

Lemma until_semicolon_split (s : string) :
  exists post,
    s = until_semicolon s ++ post /\
    (post = EmptyString \/ exists rest, post = String ";"%char rest).
Proof.
  induction s as [|c s [post [Hs Hpost]]].
  - exists EmptyString. split; [reflexivity | now left].
  - cbn [until_semicolon]. destruct (Ascii.eqb c ";") eqn:Hc.
    + apply Ascii.eqb_eq in Hc. subst c. exists (String ";"%char s).
      split; [reflexivity | right; eauto].
    + exists post. split; [simpl; now rewrite <- Hs | exact Hpost].
Qed.

Lemma until_semicolon_free (s : string) :
  mem_char ";"%char (until_semicolon s) = false.
Proof.
  induction s as [|c s IH]; [reflexivity|]. cbn [until_semicolon].
  destruct (Ascii.eqb c ";") eqn:Hc; [reflexivity|].
  cbn [mem_char]. rewrite Ascii.eqb_sym in Hc. now rewrite Hc, IH.
Qed.

Lemma until_semicolon_keeps_select (s : string) :
  String.prefix "select" (lower s) = true ->
  String.prefix "select" (lower (until_semicolon s)) = true.
Proof.
  intros H. destruct (until_semicolon_split s) as [post [Hs Hpost]].
  rewrite Hs, lower_app in H. destruct Hpost as [-> | [rest ->]].
  - now rewrite sapp_nil_r in H.
  - now apply (prefix_cut_char _ _ (lower rest) ";"%char) in H.
Qed.

Lemma search_select_found (sql group1 : string) :
  search_select sql = Some group1 ->
  exists before found,
    sql = before ++ found /\ group1 = until_semicolon found /\
    String.prefix "select" (lower found) = true /\ space_at 6 found = true.
Proof.
  induction sql as [|c sql IH]; [discriminate|]. cbn [search_select].
  destruct (String.prefix "select" (lower (String c sql)) && space_at 6 (String c sql))
    eqn:Hhere.
  - intros H. apply andb_true_iff in Hhere as [Hp Hsp].
    exists EmptyString, (String c sql). repeat split; congruence.
  - intros H. destruct (IH H) as [before [found [Hs Hrest]]].
    exists (String c before), found. split; [simpl; now rewrite Hs | exact Hrest].
Qed.

(** X10: the group the select search gives is a piece of the text
    searched that starts with select, whatever the case, holds no
    semicolon and is followed in the text by a semicolon or by nothing. *)
Theorem search_select_group (sql group1 : string) :
  search_select sql = Some group1 ->
  (exists before after,
      sql = before ++ group1 ++ after /\
      (after = EmptyString \/ StartsWith ";" after)) /\
  StartsWith "select" (lower group1) /\
  ~ Substring ";" group1.
Proof.
  intros H.
  destruct (search_select_found sql group1 H) as [before [found [Hs [-> [Hp _]]]]].
  repeat split.
  - destruct (until_semicolon_split found) as [post [Hf Hpost]].
    exists before, post. split; [now rewrite <- Hf|].
    destruct Hpost as [-> | [rest ->]]; [now left | right; now exists rest].
  - apply prefix_StartsWith. now apply until_semicolon_keeps_select.
  - apply (absent_char ";"%char). apply until_semicolon_free.
Qed.

Lemma search_select_group_witness :
  (exists before after,
      "The query is: select a from t; -- done" = before ++ "select a from t" ++ after /\
      (after = EmptyString \/ StartsWith ";" after)) /\
  StartsWith "select" (lower "select a from t") /\
  ~ Substring ";" "select a from t".
Proof.
  apply (search_select_group "The query is: select a from t; -- done" "select a from t").
  reflexivity.
Defined.

(** ** The retry loop of generate_sql *)

Lemma generate_content_prompts (prompt : string) (m : Model) :
  prompts (snd (generate_content prompt m)) = (prompts m ++ [prompt])%list.
Proof.
  unfold generate_content. destruct (script m) as [|[text | msg] rest]; reflexivity.
Qed.

Lemma generate_sql_loop_prompts (prompt : string) (attempts : nat) (m : Model) :
  exists used,
    used <= attempts /\
    prompts (snd (generate_sql_loop attempts prompt m))
    = (prompts m ++ repeat prompt used)%list /\
    (fst (generate_sql_loop attempts prompt m) = None -> used = attempts) /\
    (fst (generate_sql_loop attempts prompt m) <> None -> 1 <= used).
Proof.
  revert m. induction attempts as [|n IH]; intros m.
  - exists 0. cbn. rewrite app_nil_r. repeat split; try lia. congruence.
  - cbn [generate_sql_loop].
    pose proof (generate_content_prompts prompt m) as Hlog.
    destruct (generate_content prompt m) as [response m1]. simpl in Hlog.
    assert (Hretry :
      exists used,
        used <= S n /\
        prompts (snd (generate_sql_loop n prompt m1))
        = (prompts m ++ repeat prompt used)%list /\
        (fst (generate_sql_loop n prompt m1) = None -> used = S n) /\
        (fst (generate_sql_loop n prompt m1) <> None -> 1 <= used)).
    { destruct (IH m1) as [used [Hle [Hp [Hnone Hsome]]]].
      exists (S used). repeat split; try lia.
      - rewrite Hp, Hlog, <- app_assoc. reflexivity.
      - intros H. now rewrite (Hnone H). }
    destruct response as [text|e]; [|exact Hretry].
    destruct (extract_sql text) as [sql|]; [|exact Hretry].
    exists 1. cbn. repeat split; try lia; try congruence.
Qed.

(** X11: [generate_sql] sends its prompt to the service at least once and
    at most three times, the same prompt each time, and gives up with
    [None] only after the third call. *)
Theorem generate_sql_invocations (current_year : Z) (question schema_text : string)
    (m : Model) :
  exists used,
    1 <= used <= 3 /\
    prompts (snd (generate_sql current_year question schema_text m))
    = (prompts m ++ repeat (sql_prompt current_year schema_text question) used)%list /\
    invocations (snd (generate_sql current_year question schema_text m))
    = invocations m + used /\
    (fst (generate_sql current_year question schema_text m) = None -> used = 3).
Proof.
  unfold generate_sql, invocations.
  destruct (generate_sql_loop_prompts (sql_prompt current_year schema_text question)
              max_retries m) as [used [Hle [Hp [Hnone Hsome]]]].
  exists used. unfold max_retries in *. repeat split; try assumption.
  - destruct (fst (generate_sql_loop 3 (sql_prompt current_year schema_text question) m))
      eqn:Hr.
    + apply Hsome. congruence.
    + rewrite (Hnone eq_refl). lia.
  - rewrite Hp, length_app, repeat_length. reflexivity.
Qed.

Lemma generate_sql_loop_result (prompt : string) (attempts : nat) (m : Model)
    (sql : string) :
  fst (generate_sql_loop attempts prompt m) = Some sql ->
  exists text statement,
    extract_sql text = Some statement /\ sql = enforce_limit statement.
Proof.
  revert m. induction attempts as [|n IH]; intros m; [discriminate|].
  cbn [generate_sql_loop]. destruct (generate_content prompt m) as [response m1].
  destruct response as [text|e]; [|apply IH].
  destruct (extract_sql text) as [statement|] eqn:Hx; [|apply IH].
  cbn. intros H; injection H as <-. eauto.
Qed.

Lemma enforce_limit_absent (c : ascii) (s : string) :
  mem_char c " LIMIT 50;" = false ->
  mem_char c s = false ->
  mem_char c (enforce_limit s) = false.
Proof.
  intros Hc Hs. unfold enforce_limit.
  destruct (contains "limit" (lower s)); [exact Hs|].
  destruct (contains "from" (lower s) && _); [|exact Hs].
  rewrite mem_char_app, Hc, orb_false_r. unfold rstrip. now apply rstrip_by_absent.
Qed.

(** X12: a statement [generate_sql] returns is not empty and has neither
    a backtick nor a line feed, and [validate_sql] either accepts it or
    refuses it for a forbidden keyword: it never finds it empty or not
    starting with select. *)
Theorem generate_sql_result_valid (current_year : Z) (question schema_text : string)
    (m : Model) (sql : string) :
  fst (generate_sql current_year question schema_text m) = Some sql ->
  sql <> EmptyString /\
  ~ Substring "`" sql /\
  ~ Substring newline sql /\
  (validate_sql (Some sql) = Returns sql \/
   exists k, In k FORBIDDEN_SQL /\ Substring k (lower sql) /\
             validate_sql (Some sql) = Raises (UnsafeQuery k)).
Proof.
  intros H. apply generate_sql_loop_result in H as [text [statement [Hx ->]]].
  destruct (extract_sql_facts text statement Hx) as [Hsel [Htick Hnl]].
  assert (Htruthy : truthy (enforce_limit statement) = true).
  { apply enforce_limit_nonempty. destruct statement; [discriminate Hsel | reflexivity]. }
  repeat split.
  - intros Hempty. rewrite Hempty in Htruthy. discriminate Htruthy.
  - apply (absent_char backtick). now apply enforce_limit_absent.
  - apply (absent_char (ascii_of_nat 10)). now apply enforce_limit_absent.
  - unfold validate_sql. rewrite Htruthy. cbn [negb].
    destruct (first_forbidden FORBIDDEN_SQL (lower (enforce_limit statement)))
      as [k|] eqn:Hscan.
    + right. exists k. destruct (first_forbidden_some _ _ _ Hscan). now repeat split.
    + left. unfold startswith.
      now rewrite (enforce_limit_keeps_select statement (strip_keeps_select _ Hsel)).
Qed.

Lemma generate_sql_result_valid_witness :
  "select a from t LIMIT 50;" <> EmptyString /\
  ~ Substring "`" "select a from t LIMIT 50;" /\
  ~ Substring newline "select a from t LIMIT 50;" /\
  (validate_sql (Some "select a from t LIMIT 50;") = Returns "select a from t LIMIT 50;" \/
   exists k, In k FORBIDDEN_SQL /\ Substring k (lower "select a from t LIMIT 50;") /\
             validate_sql (Some "select a from t LIMIT 50;") = Raises (UnsafeQuery k)).
Proof.
  apply (generate_sql_result_valid 2024 "Which accounts?" "accounts: a (int)"
           {| script := [Failure "timeout"; Text "I cannot answer";
                         Text "```sql select `a` from t```"];
              prompts := [] |}
           "select a from t LIMIT 50;").
  reflexivity.
Defined.

(** ** The fences around a chart reply *)

Lemma lower_char_backtick (c : ascii) :
  lower_char c = backtick -> c = backtick.
Proof.
  destruct c as [[] [] [] [] [] [] [] []]; vm_compute; intros H;
    first [reflexivity | discriminate H].
Qed.

Lemma drop_fences_skip (skipped rest : string) :
  drop_fences (String.length skipped) (skipped ++ rest) = drop_fences 0 rest.
Proof. induction skipped as [|c skipped IH]; [reflexivity | exact IH]. Qed.

Lemma drop_fences_keeps (body rest : string) :
  mem_char backtick body = false ->
  drop_fences 0 (body ++ rest) = body ++ drop_fences 0 rest.
Proof.
  induction body as [|c body IH]; intros H; [reflexivity|].
  cbn [mem_char] in H. apply orb_false_iff in H as [Hc Hbody].
  apply Ascii.eqb_neq in Hc.
  change (String c body ++ rest) with (String c (body ++ rest)).
  cbn [drop_fences lower String.prefix].
  destruct (ascii_dec "`" (lower_char c)) as [Heq|_].
  { exfalso. apply Hc. symmetry. apply lower_char_backtick. now rewrite <- Heq. }
  destruct (ascii_dec "`" c) as [Heq|_]; [now (exfalso; apply Hc)|].
  now rewrite (IH Hbody).
Qed.

(** X13: the fences of a chart reply are taken off.  A body without a
    backtick that stands between an opening fence tagged json, in any
    case, and a closing fence comes out as it is; so does a body between
    untagged fences when it does not itself start with json. *)
Theorem drop_fences_unwraps (tag body : string) :
  ~ Substring "`" body ->
  (lower tag = "json" ->
   drop_fences 0 ("```" ++ tag ++ body ++ "```") = body) /\
  (String.prefix "json" (lower body) = false ->
   drop_fences 0 ("```" ++ body ++ "```") = body).
Proof.
  intros Hbody. apply (absent_char backtick) in Hbody. split.
  - intros Htag.
    assert (Hlen : String.length tag = 4).
    { assert (H : String.length (lower tag) = 4) by now rewrite Htag.
      clear Htag. revert H. generalize 4.
      induction tag as [|c tag IH]; intros n H; [exact H|].
      destruct n; [discriminate H|]. simpl in H |- *. f_equal. apply IH. now injection H. }
    assert (Hfence : String.prefix "```json" (lower ("```" ++ tag ++ body ++ "```")) = true).
    { apply prefix_StartsWith. exists (lower (body ++ "```")).
      rewrite !lower_app, Htag. reflexivity. }
    change ("```" ++ tag ++ body ++ "```")
      with (String "`" ("``" ++ tag ++ body ++ "```")) in Hfence |- *.
    cbn [drop_fences]. rewrite Hfence.
    replace ("``" ++ tag ++ body ++ "```") with (("``" ++ tag) ++ body ++ "```")
      by now rewrite sapp_assoc.
    replace 6 with (String.length ("``" ++ tag)) by (simpl; now rewrite Hlen).
    rewrite drop_fences_skip, (drop_fences_keeps body "```" Hbody).
    simpl. apply sapp_nil_r.
  - intros Hplain.
    assert (Hfence : String.prefix "```json" (lower ("```" ++ body ++ "```")) = false).
    { destruct (String.prefix "```json" (lower ("```" ++ body ++ "```"))) eqn:Hp;
        [|reflexivity].
      rewrite !lower_app in Hp. cbn in Hp.
      apply (prefix_cut_char "json" (lower body) "``" "`"%char) in Hp;
        [congruence | reflexivity]. }
    change ("```" ++ body ++ "```") with (String "`" ("``" ++ body ++ "```"))
      in Hfence |- *.
    cbn [drop_fences]. rewrite Hfence.
    assert (Hplainfence :
              String.prefix "```" (String "`" ("``" ++ body ++ "```")) = true).
    { apply prefix_StartsWith. now exists (body ++ "```"). }
    rewrite Hplainfence.
    change 2 with (String.length "``").
    rewrite drop_fences_skip, (drop_fences_keeps body "```" Hbody).
    simpl. apply sapp_nil_r.
Qed.

Lemma drop_fences_unwraps_witness :
  drop_fences 0 ("```" ++ "JSON" ++ " {chart: bar} " ++ "```") = " {chart: bar} " /\
  drop_fences 0 ("```" ++ " {chart: bar} " ++ "```") = " {chart: bar} ".
Proof.
  assert (Hbody : ~ Substring "`" " {chart: bar} ").
  { apply not_contains_Substring. reflexivity. }
  split.
  - apply (proj1 (drop_fences_unwraps "JSON" " {chart: bar} " Hbody)). reflexivity.
  - apply (proj2 (drop_fences_unwraps "JSON" " {chart: bar} " Hbody)). reflexivity.
Defined.

(** ** The query route *)

Section RouteFacts.
Context {E : External}.
Variable store : Store.

Lemma generate_insights_calls (df : DataFrame) (question sql : string) (m : Model) :
  Frame.empty df = false ->
  invocations (snd (generate_insights df question sql m)) = S (invocations m).
Proof.
  intros H. unfold generate_insights, invocations. rewrite H.
  pose proof (generate_content_prompts (insights_prompt df question sql) m) as Hlog.
  destruct (generate_content (insights_prompt df question sql) m) as [response m1].
  simpl in Hlog. destruct response; simpl; rewrite Hlog, length_app; simpl; lia.
Qed.

Lemma generate_chart_spec_calls (df : DataFrame) (question : string) (m : Model) :
  invocations (snd (generate_chart_spec df question m)) = S (invocations m).
Proof.
  unfold generate_chart_spec, invocations.
  pose proof (generate_content_prompts (chart_prompt df question) m) as Hlog.
  destruct (generate_content (chart_prompt df question) m) as [response m1].
  simpl in Hlog. destruct response as [text|e]; simpl.
  - destruct (json_loads _); simpl; rewrite Hlog, length_app; simpl; lia.
  - rewrite Hlog, length_app; simpl; lia.
Qed.

Lemma generate_sql_calls (current_year : Z) (question schema_text : string)
    (m : Model) :
  invocations m + 1 <= invocations (snd (generate_sql current_year question schema_text m))
  <= invocations m + 3.
Proof.
  unfold generate_sql, invocations.
  destruct (generate_sql_loop_prompts (sql_prompt current_year schema_text question)
              max_retries m) as [used [Hle [Hp [Hnone Hsome]]]].
  rewrite Hp, length_app, repeat_length. unfold max_retries in *.
  destruct (fst (generate_sql_loop 3 (sql_prompt current_year schema_text question) m))
    eqn:Hr.
  - assert (1 <= used) by (apply Hsome; congruence). lia.
  - rewrite (Hnone eq_refl). lia.
Qed.

Lemma process_query_schema_status (error : string) (status : nat) :
  process_query_schema store = inl (ErrorResponse error status) -> status = 500.
Proof.
  unfold process_query_schema.
  destruct (get_schema_text store) as [text|[msg|msg]]; try congruence.
  destruct (negb (truthy text) || contains "⚠️" text); congruence.
Qed.

Lemma validate_sql_returns (s r : string) :
  validate_sql (Some s) = Returns r ->
  r = s /\ first_forbidden FORBIDDEN_SQL (lower s) = None /\
  String.prefix "select" (strip (lower s)) = true.
Proof.
  unfold validate_sql, startswith. destruct (negb (truthy s)); [discriminate|].
  destruct (first_forbidden FORBIDDEN_SQL (lower s)); [discriminate|].
  destruct (String.prefix "select" (strip (lower s))); [|discriminate].
  cbn [negb]. intros H; injection H as <-. now repeat split.
Qed.

Lemma clean_frame_shape (df : DataFrame) :
  Frame.columns (clean_frame df) = Frame.columns df /\
  Frame.len (clean_frame df) = Frame.len df.
Proof.
  split.
  - unfold Frame.columns, clean_frame. rewrite map_map. apply map_ext.
    intros [label c]. now destruct c.
  - destruct df as [|[label c] df]; [reflexivity|].
    destruct c; simpl; now rewrite ?length_map.
Qed.

Lemma to_dict_records_shape (df : DataFrame) :
  List.length (Frame.to_dict_records df) = Frame.len df /\
  Forall (fun row => map fst row = Frame.columns df) (Frame.to_dict_records df).
Proof.
  unfold Frame.to_dict_records. split.
  - now rewrite length_map, length_seq.
  - apply Forall_map, Forall_forall. intros i _. now rewrite map_map.
Qed.

Lemma nonempty_frame_rows (df : DataFrame) :
  Frame.empty df = false -> 0 < Frame.len df.
Proof.
  destruct df as [|[label c] df]; simpl; [discriminate|].
  intros H. apply Nat.eqb_neq in H. lia.
Qed.

(** A successful answer comes from a statement that [validate_sql]
    returned and [fetch_df] ran. *)
Lemma process_query_success (current_year : Z) (question : string) (m : Model)
    (response : query_response) (m' : Model) :
  process_query store current_year question m = (response, m') ->
  forall sql,
    (response = QueryNoResults sql \/
     exists data insights chart_spec n,
       response = QueryResult sql data insights chart_spec n) ->
  exists schema_text sql0 df,
    process_query_schema store = inr schema_text /\
    validate_sql (Some sql0) = Returns sql /\
    fetch_df store sql = Returns df /\
    (Frame.empty df = true -> response = QueryNoResults sql) /\
    (Frame.empty df = false ->
     response = QueryResult sql (Frame.to_dict_records (clean_frame df))
                  (fst (generate_insights df question sql
                          (snd (generate_sql current_year question schema_text m))))
                  (fst (generate_chart_spec df question
                          (snd (generate_insights df question sql
                                  (snd (generate_sql current_year question schema_text m))))))
                  (Frame.len df)).
Proof.
  unfold process_query.
  destruct (negb (truthy question)).
  { intros H sql [-> | [? [? [? [? ->]]]]]; discriminate H. }
  destruct (process_query_schema store) as [[error status]|schema_text] eqn:Hschema.
  { intros H sql [-> | [? [? [? [? ->]]]]]; discriminate H. }
  destruct (generate_sql current_year question schema_text m) as [[sql0|] m1] eqn:Hgen.
  2:{ intros H sql [-> | [? [? [? [? ->]]]]]; discriminate H. }
  destruct (negb (truthy sql0)).
  { intros H sql [-> | [? [? [? [? ->]]]]]; discriminate H. }
  destruct (validate_sql (Some sql0)) as [sql1|e] eqn:Hvalid.
  2:{ intros H sql [-> | [? [? [? [? ->]]]]]; discriminate H. }
  destruct (fetch_df store sql1) as [df|e] eqn:Hfetch.
  2:{ intros H sql [-> | [? [? [? [? ->]]]]]; discriminate H. }
  destruct (Frame.empty df) eqn:Hempty.
  - intros H sql Hresp. injection H as <- <-.
    assert (sql = sql1) by (destruct Hresp as [H | [? [? [? [? H]]]]]; congruence).
    subst sql. exists schema_text, sql0, df.
    repeat split; try assumption; try reflexivity. intros; congruence.
  - simpl snd.
    destruct (generate_insights df question sql1 m1) as [insights m2] eqn:Hins.
    destruct (generate_chart_spec df question m2) as [chart_spec m3] eqn:Hchart.
    intros H sql Hresp. injection H as <- <-.
    assert (sql = sql1) by (destruct Hresp as [H | [? [? [? [? H]]]]]; congruence).
    subst sql. exists schema_text, sql0, df.
    repeat split; try assumption; try reflexivity.
    + intros; congruence.
    + intros _. rewrite Hgen. simpl. rewrite Hins. simpl. now rewrite Hchart.
Qed.

End RouteFacts.

(** X14: the statement of a successful answer of [process_query], with
    or without rows, is one that [validate_sql] accepts (no forbidden
    keyword in its lower-cased text, select at the start of its trimmed,
    lower-cased text) and that [fetch_df] ran without error. *)
Theorem process_query_runs_validated_sql {E : External} (store : Store)
    (current_year : Z) (question : string) (m : Model) (sql : string) :
  (fst (process_query store current_year question m) = QueryNoResults sql \/
   exists data insights chart_spec n,
     fst (process_query store current_year question m)
     = QueryResult sql data insights chart_spec n) ->
  validate_sql (Some sql) = Returns sql /\
  (forall k, In k FORBIDDEN_SQL -> ~ Substring k (lower sql)) /\
  StartsWith "select" (strip (lower sql)) /\
  exists df, fetch_df store sql = Returns df.
Proof.
  intros Hresp.
  destruct (process_query_success store current_year question m
              (fst (process_query store current_year question m))
              (snd (process_query store current_year question m))
              (surjective_pairing _) sql Hresp)
    as [schema_text [sql0 [df [_ [Hvalid [Hfetch _]]]]]].
  destruct (validate_sql_returns sql0 sql Hvalid) as [-> [Hscan Hsel]].
  repeat split.
  - exact Hvalid.
  - now apply first_forbidden_none.
  - now apply prefix_StartsWith.
  - now exists df.
Qed.

Lemma process_query_runs_validated_sql_witness :
  validate_sql (Some "SELECT Revenue FROM pnl_data LIMIT 50;")
  = Returns "SELECT Revenue FROM pnl_data LIMIT 50;" /\
  (forall k, In k FORBIDDEN_SQL ->
             ~ Substring k (lower "SELECT Revenue FROM pnl_data LIMIT 50;")) /\
  StartsWith "select" (strip (lower "SELECT Revenue FROM pnl_data LIMIT 50;")) /\
  exists df,
    fetch_df (E := Sample.external) Sample.one_table_store
      "SELECT Revenue FROM pnl_data LIMIT 50;" = Returns df.
Proof.
  apply (process_query_runs_validated_sql (E := Sample.external) Sample.one_table_store
           2024 "What was total revenue?"
           {| script := [Text "SELECT Revenue FROM pnl_data"; Text " Revenue is 100. ";
                         Text "null"];
              prompts := [] |}).
  right. do 4 eexists. reflexivity.
Defined.

(** X15: one request calls the service at most five times, and at most
    three times when it does not end in a result with rows; a result
    with rows takes at least three calls. *)
Theorem process_query_invocations {E : External} (store : Store)
    (current_year : Z) (question : string) (m : Model) :
  invocations m <= invocations (snd (process_query store current_year question m))
  <= invocations m + 5 /\
  ((forall sql data insights chart_spec n,
       fst (process_query store current_year question m)
       <> QueryResult sql data insights chart_spec n) ->
   invocations (snd (process_query store current_year question m))
   <= invocations m + 3) /\
  (forall sql data insights chart_spec n,
      fst (process_query store current_year question m)
      = QueryResult sql data insights chart_spec n ->
      invocations m + 3
      <= invocations (snd (process_query store current_year question m))).
Proof.
  unfold process_query.
  destruct (negb (truthy question)).
  { simpl. repeat split; try lia. intros; discriminate. }
  destruct (process_query_schema store) as [[error status]|schema_text].
  { simpl. repeat split; try lia. intros; discriminate. }
  pose proof (generate_sql_calls current_year question schema_text m) as Hsql.
  destruct (generate_sql current_year question schema_text m) as [[sql0|] m1].
  2:{ simpl in *. repeat split; try lia. intros; discriminate. }
  simpl in Hsql.
  destruct (negb (truthy sql0)).
  { simpl. repeat split; try lia. intros; discriminate. }
  destruct (validate_sql (Some sql0)) as [sql1|e].
  2:{ simpl. repeat split; try lia. intros; discriminate. }
  destruct (fetch_df store sql1) as [df|e].
  2:{ simpl. repeat split; try lia. intros; discriminate. }
  destruct (Frame.empty df) eqn:Hempty.
  { simpl. repeat split; try lia. intros; discriminate. }
  pose proof (generate_insights_calls df question sql1 m1 Hempty) as Hins.
  destruct (generate_insights df question sql1 m1) as [insights m2].
  pose proof (generate_chart_spec_calls df question m2) as Hchart.
  destruct (generate_chart_spec df question m2) as [chart_spec m3].
  simpl in *. repeat split; try lia.
  intros Hnot. exfalso. eapply Hnot. reflexivity.
Qed.

(** X16: a request is answered with status 400 exactly when its question
    is empty, and then neither the store nor the service is used: the
    answer does not depend on the store and the service is left as it
    was. *)
Theorem process_query_requires_question {E : External} (store : Store)
    (current_year : Z) (question : string) (m : Model) :
  ((exists error, fst (process_query store current_year question m)
                  = QueryError error 400)
   <-> question = EmptyString) /\
  (question = EmptyString ->
   process_query store current_year question m
   = (QueryError "Question is required" 400, m)).
Proof.
  split; [split|].
  - intros [error H]. destruct question; [reflexivity|]. exfalso.
    revert H. unfold process_query. cbn [truthy negb].
    destruct (process_query_schema store) as [[error0 status]|schema_text] eqn:Hschema.
    { simpl. intros H. injection H as _ Hst.
      apply process_query_schema_status in Hschema. lia. }
    destruct (generate_sql _ _ _ _) as [[sql0|] m1]; [|discriminate].
    destruct (negb (truthy sql0)); [discriminate|].
    destruct (validate_sql (Some sql0)) as [sql1|e]; [|discriminate].
    destruct (fetch_df store sql1) as [df|e]; [|discriminate].
    destruct (Frame.empty df); [discriminate|].
    destruct (generate_insights _ _ _ _). destruct (generate_chart_spec _ _ _).
    discriminate.
  - intros ->. eexists. reflexivity.
  - intros ->. reflexivity.
Qed.

Lemma process_query_requires_question_witness :
  process_query (E := Sample.external) Sample.unreachable_store 2024 ""
    {| script := [Text "SELECT 1"]; prompts := [] |}
  = (QueryError "Question is required" 400,
     {| script := [Text "SELECT 1"]; prompts := [] |}).
Proof.
  apply (proj2 (process_query_requires_question (E := Sample.external)
                  Sample.unreachable_store 2024 ""
                  {| script := [Text "SELECT 1"]; prompts := [] |})).
  reflexivity.
Defined.

(** X17: in a result with rows, [row_count] is the number of records in
    [data] and is positive, and every record has one field per column of
    the fetched table: as many fields as the table has columns, under
    the same labels. *)
Theorem process_query_result_rows {E : External} (store : Store)
    (current_year : Z) (question : string) (m : Model)
    (sql : string) (data : list record) (insights : string) (chart_spec : json)
    (n : nat) :
  fst (process_query store current_year question m)
  = QueryResult sql data insights chart_spec n ->
  n = List.length data /\ 0 < n /\
  exists df,
    fetch_df store sql = Returns df /\
    n = Frame.len df /\
    Forall (fun row =>
              List.length row = List.length (Frame.columns df) /\
              forall label, In label (map fst row) <-> In label (Frame.columns df))
           data.
Proof.
  intros Hresp.
  destruct (process_query_success store current_year question m
              (fst (process_query store current_year question m))
              (snd (process_query store current_year question m))
              (surjective_pairing _) sql)
    as [schema_text [sql0 [df [_ [_ [Hfetch [Hnone Hrows]]]]]]].
  { right. eauto. }
  destruct (Frame.empty df) eqn:Hempty.
  { rewrite (Hnone eq_refl) in Hresp. discriminate Hresp. }
  rewrite (Hrows eq_refl) in Hresp. injection Hresp as <- _ _ <-.
  destruct (to_dict_records_shape (clean_frame df)) as [Hlen Hlabels].
  destruct (clean_frame_shape df) as [Hcols Hsame].
  rewrite Hlen, Hsame. repeat split.
  - now apply nonempty_frame_rows.
  - exists df. split; [exact Hfetch|]. split; [reflexivity|].
    rewrite <- Hcols. eapply Forall_impl; [|exact Hlabels].
    intros row Hrow. simpl in Hrow. rewrite <- Hrow, length_map. split; [reflexivity | tauto].
Qed.

Lemma process_query_result_rows_witness :
  1 = List.length [[("Revenue", PNum (inject_Z 100)); ("year", PNum (inject_Z 2024))]] /\
  0 < 1 /\
  exists df,
    fetch_df (E := Sample.external) Sample.one_table_store
      "SELECT Revenue FROM pnl_data LIMIT 50;" = Returns df /\
    1 = Frame.len df /\
    Forall (fun row =>
              List.length row = List.length (Frame.columns df) /\
              forall label, In label (map fst row) <-> In label (Frame.columns df))
           [[("Revenue", PNum (inject_Z 100)); ("year", PNum (inject_Z 2024))]].
Proof.
  apply (process_query_result_rows (E := Sample.external) Sample.one_table_store
           2024 "What was total revenue?"
           {| script := [Text "SELECT Revenue FROM pnl_data"; Text " Revenue is 100. ";
                         Text "null"];
              prompts := [] |}
           "SELECT Revenue FROM pnl_data LIMIT 50;" _ "Revenue is 100." JNull 1).
  reflexivity.
Defined.

(** ** The status route *)

Lemma firstn_NoDup_keeps {A : Type} (n : nat) (l : list A) :
  NoDup l -> NoDup (firstn n l).
Proof.
  intros H. rewrite <- (firstn_skipn n l) in H. now apply NoDup_app_remove_r in H.
Qed.

Lemma firstn_member {A : Type} (n : nat) (l : list A) (x : A) :
  In x (firstn n l) -> In x l.
Proof.
  intros H. rewrite <- (firstn_skipn n l). apply in_or_app. now left.
Qed.

(** X18: [get_status] lists at most five tables, each once and each a
    table of the metadata answer; when the connection test fails it
    reports the store offline with no table and a total of 0 rows. *)
Theorem get_status_listing {E : External} (store : Store) (api_key : option string) :
  List.length (tables (get_status store api_key)) <= 5 /\
  NoDup (tables (get_status store api_key)) /\
  (forall t, In t (tables (get_status store api_key)) ->
             exists rows, metadata_query store = Returns rows /\
                          In t (map table_name rows)) /\
  (test_connection store = false ->
   db_status (get_status store api_key) = "offline" /\
   tables (get_status store api_key) = [] /\
   total_rows (get_status store api_key) = 0%Z).
Proof.
  unfold get_status. destruct (test_connection store).
  - cbn [String.eqb]. change (String.eqb "connected" "connected") with true.
    cbn iota.
    destruct (metadata_query store) as [rows|e] eqn:Hm.
    + destruct (get_schema_detailed_entries store rows Hm) as [g [[Hnd [Hkeys _]] Hg]].
      rewrite Hg. cbn [tables fst].
      assert (Hfst : map fst (map (fun entry : string * table_info =>
                         (fst entry, fill_table store (fst entry) (snd entry))) g)
                     = map fst g).
      { rewrite map_map. reflexivity. }
      rewrite Hfst. repeat split.
      * apply firstn_le_length.
      * now apply firstn_NoDup_keeps.
      * intros t Ht. exists rows. split; [reflexivity|].
        apply Hkeys. now apply firstn_member in Ht.
      * discriminate.
      * discriminate.
      * discriminate.
    + unfold get_schema_detailed. rewrite Hm. cbn.
      split; [lia|]. split; [constructor|]. split; [intros t []|discriminate].
  - cbn. split; [lia|]. split; [constructor|]. split; [intros t []|].
    intros _. repeat split.
Qed.

Lemma get_status_listing_witness :
  db_status (get_status (E := Sample.external) Sample.unreachable_store (Some "key"))
  = "offline" /\
  tables (get_status (E := Sample.external) Sample.unreachable_store (Some "key")) = [] /\
  total_rows (get_status (E := Sample.external) Sample.unreachable_store (Some "key"))
  = 0%Z.
Proof.
  apply (proj2 (proj2 (proj2 (get_status_listing (E := Sample.external)
                                Sample.unreachable_store (Some "key"))))).
  reflexivity.
Defined.
